(** * SQL Server query-activity job: a shallow embedding and its properties

    This development embeds [sqlserver/datadog_checks/sqlserver/activity.py]
    (class [SqlserverActivity]) and proves properties of the activity
    sampler: the exclusion predicate interpolated into the activity query,
    the row normalizer with its byte budget, the high-water mark kept
    across polls, row sanitization and the error paths of [collect_activity].

    Conventions.
    - A Python value is a tagged scalar ([value]); a row is a Python [dict],
      i.e. an insertion-ordered mapping, kept as an association list whose
      keys are pairwise distinct.
    - A Python exception is an explicit [Raise]; code that mutates
      [self._activity_last_query_start] before raising returns the mutated
      attribute next to the exception.
    - Timestamps are whole seconds ([Z]); the collection interval, a float
      in the source, is taken in whole seconds as well.
    - Collaborators living outside the module (the obfuscator, the signature
      function, Python's [repr]/[str]) are the fields of the class
      [Collaborators]; the database, the clock and the transmission channel
      of one poll are a [poll_env]. *)

From Stdlib Require Import ZArith List String Ascii Bool Lia DecimalString
  Permutation.
Import ListNotations.
Local Open Scope string_scope.
Local Open Scope Z_scope.

(** ** Python values, exceptions, dictionaries *)

Inductive value : Type :=
| VNone
| VStr (s : string)
| VInt (z : Z)
| VBytes (b : string)
| VTime (t : Z).

Inductive exn : Type :=
| KeyError (key : string)
| TypeError
| ObfuscationError
| DatabaseError
| TransmissionError.

Inductive result (A : Type) : Type :=
| Ok (a : A)
| Raise (e : exn).
Arguments Ok {A} a.
Arguments Raise {A} e.

Definition bind {A B : Type} (m : result A) (k : A -> result B) : result B :=
  match m with
  | Ok a => k a
  | Raise e => Raise e
  end.

Notation "x <- m ;; k" := (bind m (fun x => k))
  (at level 61, m at next level, right associativity).

Definition value_eqb (a b : value) : bool :=
  match a, b with
  | VNone, VNone => true
  | VStr s, VStr s' => String.eqb s s'
  | VInt z, VInt z' => Z.eqb z z'
  | VBytes s, VBytes s' => String.eqb s s'
  | VTime t, VTime t' => Z.eqb t t'
  | _, _ => false
  end.

(** [x is None] *)
Definition is_None (v : value) : bool :=
  match v with VNone => true | _ => false end.

(** Truth value of [x] in [if x:]. *)
Definition truthy (v : value) : bool :=
  match v with
  | VNone => false
  | VStr s => negb (String.eqb s "")
  | VInt z => negb (Z.eqb z 0)
  | VBytes b => negb (String.eqb b "")
  | VTime _ => true
  end.

(** [a > b]: ordered within one type, [TypeError] across types and on [None]. *)
Definition py_gt (a b : value) : result bool :=
  match a, b with
  | VStr s, VStr s' => Ok (String.ltb s' s)
  | VInt z, VInt z' => Ok (Z.gtb z z')
  | VBytes s, VBytes s' => Ok (String.ltb s' s)
  | VTime t, VTime t' => Ok (Z.gtb t t')
  | _, _ => Raise TypeError
  end.

Definition row : Type := list (string * value).

(** [d[k]] as an expression: [None] stands for [KeyError]. *)
Fixpoint dict_get (k : string) (d : row) : option value :=
  match d with
  | [] => None
  | (k', v) :: rest => if String.eqb k k' then Some v else dict_get k rest
  end.

Definition dict_lookup (k : string) (d : row) : result value :=
  match dict_get k d with
  | Some v => Ok v
  | None => Raise (KeyError k)
  end.

(** [k in d] *)
Definition dict_mem (k : string) (d : row) : bool :=
  match dict_get k d with Some _ => true | None => false end.

(** [d[k] = v]: an existing key keeps its position, a new key goes last. *)
Fixpoint dict_set (k : string) (v : value) (d : row) : row :=
  match d with
  | [] => [(k, v)]
  | (k', v') :: rest =>
      if String.eqb k k' then (k, v) :: rest else (k', v') :: dict_set k v rest
  end.

Definition keys (d : row) : list string := map fst d.

(** ** Collaborators outside the module *)

Class Collaborators : Type := {
  (** [datadog_agent.obfuscate_sql] *)
  obfuscate_sql : value -> result string;
  (** [compute_sql_signature], which may return [None] *)
  compute_sql_signature : string -> result value;
  (** Python's [repr] on scalars *)
  py_repr : value -> string;
  (** Python's [str] on scalars, as used by [str.format] *)
  py_str : value -> string
}.

(** ** Module constants *)

Definition DEFAULT_COLLECTION_INTERVAL : Z := 10.
Definition MAX_PAYLOAD_BYTES : Z := 19000000.

Definition CONNECTIONS_QUERY : string :=
"SELECT 
    login_name AS user_name,
    COUNT(session_id) AS connections,
    status,
    DB_NAME(database_id) AS database_name
FROM sys.dm_exec_sessions
    WHERE is_user_process = 1
    GROUP BY login_name, status, DB_NAME(database_id)
".

(** [ACTIVITY_QUERY] after [re.sub] and [strip], up to its only placeholder
    [{extra_query_args}], which ends the text. *)
Definition ACTIVITY_QUERY_prefix : string :=
  "SELECT at.transaction_begin_time, at.transaction_type, at.transaction_state, sess.login_name as user_name, DB_NAME(sess.database_id) as database_name, sess.status as status, text.text as text, c.client_tcp_port as client_port, c.client_net_address as client_address, sess.host_name as host_name, sess.session_id as session_id, r.* FROM sys.dm_tran_active_transactions at INNER JOIN sys.dm_tran_session_transactions st ON st.transaction_id = at.transaction_id LEFT OUTER JOIN sys.dm_exec_sessions sess ON st.session_id = sess.session_id LEFT OUTER JOIN sys.dm_exec_connections c ON sess.session_id = c.session_id LEFT OUTER JOIN sys.dm_exec_requests r ON c.connection_id = r.connection_id CROSS APPLY sys.dm_exec_sql_text(c.most_recent_sql_handle) text ".

Definition ACTIVITY_QUERY_format (extra_query_args : string) : string :=
  ACTIVITY_QUERY_prefix ++ extra_query_args.

Definition dm_exec_requests_exclude_keys : list string :=
  [ "sql_handle"; "plan_handle"; "statement_sql_handle"; "task_address";
    "page_resource"; "scheduler_id"; "context_info" ].

Definition excluded_key (k : string) : bool :=
  existsb (String.eqb k) dm_exec_requests_exclude_keys.

Definition OBFUSCATION_FAILED : string := "ERROR: failed to obfuscate".

(** ** [_hash_to_hex] *)

Definition hex_digit (n : N) : ascii :=
  match n with
  | 0%N => "0" | 1%N => "1" | 2%N => "2" | 3%N => "3"
  | 4%N => "4" | 5%N => "5" | 6%N => "6" | 7%N => "7"
  | 8%N => "8" | 9%N => "9" | 10%N => "a" | 11%N => "b"
  | 12%N => "c" | 13%N => "d" | 14%N => "e" | _ => "f"
  end%char.

(** [binascii.hexlify]: two lowercase digits per byte, high nibble first. *)
Fixpoint hexlify (b : string) : string :=
  match b with
  | EmptyString => EmptyString
  | String c rest =>
      String (hex_digit (N.div (N_of_ascii c) 16))
        (String (hex_digit (N.modulo (N_of_ascii c) 16)) (hexlify rest))
  end.

(** [hexlify] rejects what is not bytes-like; [to_native_string] turns the
    resulting bytes into a [str]. *)
Definition _hash_to_hex (hash : value) : result value :=
  match hash with
  | VBytes b => Ok (VStr (hexlify b))
  | _ => Raise TypeError
  end.

Definition is_hex_char (c : ascii) : bool :=
  existsb (Ascii.eqb c)
    (list_ascii_of_string "0123456789abcdef").

Definition is_hex_string (v : value) : bool :=
  match v with
  | VStr s => forallb is_hex_char (list_ascii_of_string s)
  | _ => false
  end.

(** ** The SQL fragment of the exclusion predicate

    The job only produces text. To say which rows the text excludes, the
    fragment it is written in gets a syntax, a printer and SQL's
    three-valued evaluation (a NULL is [None], an unknown truth value is
    [None]); [render] of the predicate built here is the text the job
    interpolates, see [extra_activity_query_args_render]. *)

Inductive sql_expr : Type :=
| SqlColumn (name : string)
| SqlDateLit (v : value)
| SqlNumLit (z : Z)
| SqlDateDiffSecond (startdate enddate : sql_expr).

Inductive sql_cond : Type :=
| SqlIsNull (e : sql_expr)
| SqlLt (a b : sql_expr)
| SqlAnd (p q : sql_cond)
| SqlNot (p : sql_cond).

Definition sql_env : Type := string -> option Z.

Fixpoint eval_expr (env : sql_env) (e : sql_expr) : option Z :=
  match e with
  | SqlColumn name => env name
  | SqlDateLit (VTime t) => Some t
  | SqlDateLit _ => None
  | SqlNumLit z => Some z
  | SqlDateDiffSecond a b =>
      match eval_expr env a, eval_expr env b with
      | Some x, Some y => Some (y - x)
      | _, _ => None
      end
  end.

Definition and3 (p q : option bool) : option bool :=
  match p, q with
  | Some false, _ | _, Some false => Some false
  | Some true, Some true => Some true
  | _, _ => None
  end.

Fixpoint eval_cond (env : sql_env) (c : sql_cond) : option bool :=
  match c with
  | SqlIsNull e => Some (match eval_expr env e with None => true | Some _ => false end)
  | SqlLt a b =>
      match eval_expr env a, eval_expr env b with
      | Some x, Some y => Some (x <? y)
      | _, _ => None
      end
  | SqlAnd p q => and3 (eval_cond env p) (eval_cond env q)
  | SqlNot p => option_map negb (eval_cond env p)
  end.

(** A [WHERE] clause keeps the rows on which it is true (not false, not unknown). *)
Definition where_keeps (c : sql_cond) (env : sql_env) : bool :=
  match eval_cond env c with Some true => true | _ => false end.

(** The two columns the predicate reads, for a candidate row of the join:
    [r.session_id] is NULL when the transaction has no request. *)
Definition candidate (r_session_id : option Z) (transaction_begin_time : option Z)
  : sql_env :=
  fun name =>
    if String.eqb name "r.session_id" then r_session_id
    else if String.eqb name "at.transaction_begin_time" then transaction_begin_time
    else None.

Section Job.
Context {C : Collaborators}.

Fixpoint render_expr (e : sql_expr) : string :=
  match e with
  | SqlColumn name => name
  | SqlDateLit v => "'" ++ py_str v ++ "'"
  | SqlNumLit z => py_str (VInt z)
  | SqlDateDiffSecond a b =>
      "DATEDIFF(second, " ++ render_expr a ++ ", " ++ render_expr b ++ ")"
  end.

Fixpoint render (c : sql_cond) : string :=
  match c with
  | SqlIsNull e => render_expr e ++ " is NULL"
  | SqlLt a b => render_expr a ++ " < " ++ render_expr b
  | SqlAnd p q => render p ++ " AND " ++ render q
  | SqlNot p => "NOT (" ++ render p ++ ")"
  end.

(** The predicate behind the text of [_get_extra_activity_query_args]. *)
Definition activity_filter (last_query_start : value) (interval : Z) : sql_cond :=
  SqlNot
    (SqlAnd
       (SqlIsNull (SqlColumn "r.session_id"))
       (SqlLt
          (SqlDateDiffSecond (SqlColumn "at.transaction_begin_time")
             (SqlDateLit last_query_start))
          (SqlNumLit interval))).

(** ** The job *)

Record event : Type := {
  ev_host : string;
  ev_ddagentversion : string;
  ev_ddsource : string;
  ev_dbm_type : string;
  ev_collection_interval : Z;
  ev_ddtags : list string;
  ev_timestamp : Z;
  ev_sqlserver_activity : list row;
  ev_sqlserver_connections : list row
}.

(** The attributes of [self] the module reads and writes, and what the job
    has handed to the metrics and transmission collaborators so far. *)
Record job : Type := {
  collection_interval : Z;
  _activity_last_query_start : value;
  error_count : nat;
  timing_count : nat;
  submitted : list event
}.

(** What one poll meets outside the job. [acquire] is the entry of the two
    [with] blocks, [execute] is [cursor.execute] followed by the
    construction of the row dicts, [transmit] is [json.dumps] followed by
    [database_monitoring_query_activity]. *)
Record poll_env : Type := {
  acquire : result unit;
  execute : string -> result (list row);
  transmit : event -> result unit;
  db_hostname : string;
  agent_version : string;
  tags : list string;
  now_ms : Z
}.

(** [__init__] *)
Definition init (configured : option Z) : job :=
  let collection_interval :=
    match configured with Some c => c | None => DEFAULT_COLLECTION_INTERVAL end in
  let collection_interval :=
    if collection_interval <=? 0 then DEFAULT_COLLECTION_INTERVAL
    else collection_interval in
  {| collection_interval := collection_interval;
     _activity_last_query_start := VNone;
     error_count := 0;
     timing_count := 0;
     submitted := [] |}.

(** [str.format] puts [str] of the attribute and of the interval into the
    text; [truthy] is the test [if self._activity_last_query_start:]. *)
Definition _get_extra_activity_query_args (self : job) : string :=
  let extra_query_args := "" in
  let extra_query_args :=
    if truthy (_activity_last_query_start self) then
      " WHERE NOT (r.session_id is NULL AND DATEDIFF(second, at.transaction_begin_time, '"
        ++ py_str (_activity_last_query_start self) ++ "') < "
        ++ py_str (VInt (collection_interval self)) ++ ")"
    else extra_query_args in
  extra_query_args ++ " ORDER BY at.transaction_begin_time ASC".

Definition _get_active_connections (env : poll_env) : result (list row) :=
  execute env CONNECTIONS_QUERY.

Definition _get_activity (env : poll_env) (self : job) : result (list row) :=
  let extra_query_args := _get_extra_activity_query_args self in
  let query := ACTIVITY_QUERY_format extra_query_args in
  execute env query.

Definition _set_last_activity (current_start : value) (r : row) : result value :=
  start_time <- dict_lookup "start_time" r ;;
  if is_None start_time then Ok current_start
  else if is_None current_start then Ok start_time
  else
    newer <- py_gt start_time current_start ;;
    Ok (if newer : bool then start_time else current_start).

Definition _sanitize_row (r : row) (obfuscated_statement : string) : result row :=
  let r := filter (fun kv => negb (excluded_key (fst kv)) && negb (is_None (snd kv))) r in
  let r := dict_set "text" (VStr obfuscated_statement) r in
  r <- (match dict_get "query_hash" r with
        | Some h => hex <- _hash_to_hex h ;; Ok (dict_set "query_hash" hex r)
        | None => Ok r
        end) ;;
  match dict_get "query_plan_hash" r with
  | Some h => hex <- _hash_to_hex h ;; Ok (dict_set "query_plan_hash" hex r)
  | None => Ok r
  end.

(** [str(row)] for a dict, over [repr] of its keys and values. *)
Definition py_str_dict (r : row) : string :=
  "{" ++ String.concat ", "
           (map (fun kv => py_repr (VStr (fst kv)) ++ ": " ++ py_repr (snd kv)) r)
      ++ "}".

Definition _get_estimated_row_size_bytes (r : row) : Z :=
  Z.of_nat (String.length (py_str_dict r)).

(** The [try]/[except] of the loop body: the row, with its signature when
    both calls returned, and the value of [obfuscated_statement]. *)
Definition obfuscate_row (r : row) : row * string :=
  match
    (text <- dict_lookup "text" r ;;
     obfuscated_statement <- obfuscate_sql text ;;
     signature <- compute_sql_signature obfuscated_statement ;;
     Ok (dict_set "query_signature" signature r, obfuscated_statement))
  with
  | Ok p => p
  | Raise _ => (r, OBFUSCATION_FAILED)
  end.

(** The test of line 146; [and] does not read [row['status']] once the
    attribute is set. *)
Definition first_poll_sleeping (last_query_start : value) (r : row) : result bool :=
  if is_None last_query_start then
    status <- dict_lookup "status" r ;;
    Ok (value_eqb status (VStr "sleeping"))
  else Ok false.

(** The loop of [_normalize_queries_and_filter_rows], from any of its
    states. The second component is [self._activity_last_query_start] when
    the method returns or raises. *)
Fixpoint normalize_loop (max_bytes_limit : Z) (rows : list row)
    (last_query_start : value) (estimated_size : Z) (normalized_rows : list row)
  : result (list row) * value :=
  match rows with
  | [] => (Ok normalized_rows, last_query_start)
  | r :: rest =>
      match first_poll_sleeping last_query_start r with
      | Raise e => (Raise e, last_query_start)
      | Ok true =>
          normalize_loop max_bytes_limit rest last_query_start estimated_size
            normalized_rows
      | Ok false =>
          let (r1, obfuscated_statement) := obfuscate_row r in
          match _set_last_activity last_query_start r1 with
          | Raise e => (Raise e, last_query_start)
          | Ok last_query_start' =>
              match _sanitize_row r1 obfuscated_statement with
              | Raise e => (Raise e, last_query_start')
              | Ok r2 =>
                  let estimated_size' :=
                    estimated_size + _get_estimated_row_size_bytes r2 in
                  if estimated_size' >? max_bytes_limit
                  then (Ok normalized_rows, last_query_start')
                  else
                    normalize_loop max_bytes_limit rest last_query_start'
                      estimated_size' (normalized_rows ++ [r2])
              end
          end
      end
  end.

Definition _normalize_queries_and_filter_rows (last_query_start : value)
    (rows : list row) (max_bytes_limit : Z) : result (list row) * value :=
  normalize_loop max_bytes_limit rows last_query_start 0 [].

Definition _create_activity_event (env : poll_env) (self : job)
    (active_sessions active_connections : list row) : event :=
  {| ev_host := db_hostname env;
     ev_ddagentversion := agent_version env;
     ev_ddsource := "sqlserver";
     ev_dbm_type := "activity";
     ev_collection_interval := collection_interval self;
     ev_ddtags := tags env;
     ev_timestamp := now_ms env;
     ev_sqlserver_activity := active_sessions;
     ev_sqlserver_connections := active_connections |}.

Definition set_last_query_start (self : job) (v : value) : job :=
  {| collection_interval := collection_interval self;
     _activity_last_query_start := v;
     error_count := error_count self;
     timing_count := timing_count self;
     submitted := submitted self |}.

(** The [except Exception] branch: count the error, return [[]]. *)
Definition on_error (self : job) : option (list row) * job :=
  (Some [],
   {| collection_interval := collection_interval self;
      _activity_last_query_start := _activity_last_query_start self;
      error_count := S (error_count self);
      timing_count := timing_count self;
      submitted := submitted self |}).

(** The end of a poll that raised nothing: the event has gone out, the
    timing is recorded, the method returns [None]. *)
Definition on_success (self : job) (ev : event) : option (list row) * job :=
  (None,
   {| collection_interval := collection_interval self;
      _activity_last_query_start := _activity_last_query_start self;
      error_count := error_count self;
      timing_count := S (timing_count self);
      submitted := submitted self ++ [ev] |}).

(** [collect_activity]: what the method returns ([[]] from the [except]
    branch, [None] otherwise) and the job afterwards. Everything from the
    entry of the [with] blocks to the submission of the event is inside the
    [try]. *)
Definition collect_activity (env : poll_env) (self : job)
  : option (list row) * job :=
  match acquire env with
  | Raise _ => on_error self
  | Ok _ =>
  match _get_active_connections env with
  | Raise _ => on_error self
  | Ok connections =>
  match _get_activity env self with
  | Raise _ => on_error self
  | Ok rows =>
      let (outcome, last_query_start) :=
        _normalize_queries_and_filter_rows (_activity_last_query_start self)
          rows MAX_PAYLOAD_BYTES in
      let self := set_last_query_start self last_query_start in
      match outcome with
      | Raise _ => on_error self
      | Ok normalized_rows =>
          let ev := _create_activity_event env self normalized_rows connections in
          match transmit env ev with
          | Raise _ => on_error self
          | Ok _ => on_success self ev
          end
      end
  end end end.

(** [run_job], once per element of [envs]. *)
Fixpoint run_polls (envs : list poll_env) (self : job) : job :=
  match envs with
  | [] => self
  | env :: rest => run_polls rest (snd (collect_activity env self))
  end.

End Job.

(** ** Vocabulary of the statements *)

Section Vocabulary.
Context {C : Collaborators}.

(** What the loop body makes of a row before the budget is looked at. *)
Definition prepare (r : row) : result row :=
  let (r1, obfuscated_statement) := obfuscate_row r in
  _sanitize_row r1 obfuscated_statement.

(** The estimated size the loop adds for a row. *)
Definition row_size (r : row) : Z :=
  match prepare r with
  | Ok o => _get_estimated_row_size_bytes o
  | Raise _ => 0
  end.

Fixpoint cumulative_size (rows : list row) : Z :=
  match rows with
  | [] => 0
  | r :: rest => row_size r + cumulative_size rest
  end.

(** The [try] block of the loop body did not reach its end. *)
Definition signature_failed (r : row) : Prop :=
  dict_get "text" r = None
  \/ (exists t e, dict_get "text" r = Some t /\ obfuscate_sql t = Raise e)
  \/ (exists t s e, dict_get "text" r = Some t /\ obfuscate_sql t = Ok s
                    /\ compute_sql_signature s = Raise e).

(** No row of [rows] is skipped by the test of line 146 when the loop
    starts with the attribute at [last_query_start]. *)
Fixpoint none_suppressed (last_query_start : value) (rows : list row) : bool :=
  match rows with
  | [] => true
  | r :: rest =>
      match first_poll_sleeping last_query_start r with
      | Ok false =>
          match _set_last_activity last_query_start (fst (obfuscate_row r)) with
          | Ok last_query_start' => none_suppressed last_query_start' rest
          | Raise _ => true
          end
      | _ => false
      end
  end.

(** The rows for which the loop reaches the call of [_set_last_activity]
    (line 156), in order. *)
Fixpoint considered (max_bytes_limit : Z) (rows : list row)
    (last_query_start : value) (estimated_size : Z) : list row :=
  match rows with
  | [] => []
  | r :: rest =>
      match first_poll_sleeping last_query_start r with
      | Raise _ => []
      | Ok true => considered max_bytes_limit rest last_query_start estimated_size
      | Ok false =>
          r ::
          match _set_last_activity last_query_start (fst (obfuscate_row r)) with
          | Raise _ => []
          | Ok last_query_start' =>
              match prepare r with
              | Raise _ => []
              | Ok r2 =>
                  let estimated_size' :=
                    estimated_size + _get_estimated_row_size_bytes r2 in
                  if estimated_size' >? max_bytes_limit then []
                  else considered max_bytes_limit rest last_query_start'
                         estimated_size'
              end
          end
      end
  end.

(** The rows one poll passes to [_set_last_activity]: none when a fetch
    raised. *)
Definition poll_considered (env : poll_env) (self : job) : list row :=
  match acquire env, _get_active_connections env, _get_activity env self with
  | Ok _, Ok _, Ok rows =>
      considered MAX_PAYLOAD_BYTES rows (_activity_last_query_start self) 0
  | _, _, _ => []
  end.

Fixpoint considered_so_far (envs : list poll_env) (self : job) : list row :=
  match envs with
  | [] => []
  | env :: rest =>
      poll_considered env self
        ++ considered_so_far rest (snd (collect_activity env self))
  end.




End Vocabulary.

Definition start_time_of (r : row) : option Z :=
  match dict_get "start_time" r with
  | Some (VTime t) => Some t
  | _ => None
  end.

(** [w] is the largest [start_time] of [rows], [None] when none has one. *)
Definition is_max_start_time (rows : list row) (w : value) : Prop :=
  match w with
  | VNone => forall r, In r rows -> start_time_of r = None
  | VTime m =>
      (exists r, In r rows /\ start_time_of r = Some m)
      /\ (forall r t, In r rows -> start_time_of r = Some t -> t <= m)
  | _ => False
  end.

(** Order of the attribute's values: unset below every timestamp. *)
Definition watermark_le (a b : value) : Prop :=
  match a, b with
  | VNone, (VNone | VTime _) => True
  | VTime x, VTime y => x <= y
  | _, _ => False
  end.

(** The [start_time] column holds a datetime or NULL. *)
Definition start_time_typed (r : row) : bool :=
  match dict_get "start_time" r with
  | None | Some VNone | Some (VTime _) => true
  | _ => false
  end.

Definition time_or_None (v : value) : bool :=
  match v with VNone | VTime _ => true | _ => false end.

(** Every entry named [query_hash] or [query_plan_hash] holds bytes or NULL. *)
Definition hash_fields_typed (r : row) : bool :=
  forallb
    (fun kv =>
       if String.eqb (fst kv) "query_hash" || String.eqb (fst kv) "query_plan_hash"
       then match snd kv with VNone | VBytes _ => true | _ => false end
       else true)
    r.

(** A row as the activity query delivers it, as far as the normalizer
    depends on it: [status] and [start_time] are columns of the result,
    [start_time] is a datetime or NULL, the hashes are binary or NULL. *)
Definition fetched_row (r : row) : bool :=
  dict_mem "status" r
  && match dict_get "start_time" r with
     | Some VNone | Some (VTime _) => true
     | _ => false
     end
  && hash_fields_typed r.

Definition env_typed (env : poll_env) : Prop :=
  forall query rows, execute env query = Ok rows ->
    forallb start_time_typed rows = true.

(** The condition of the dict comprehension of [_sanitize_row]. *)
Definition kept_by_comprehension (kv : string * value) : bool :=
  negb (excluded_key (fst kv)) && negb (is_None (snd kv)).

(** [kept] is [rows] with some rows left out, order kept. *)
Inductive subseq : list row -> list row -> Prop :=
| subseq_nil : subseq [] []
| subseq_skip : forall r kept rows, subseq kept rows -> subseq kept (r :: rows)
| subseq_take : forall r kept rows, subseq kept rows -> subseq (r :: kept) (r :: rows).

(** ** Sample collaborators and rows

    A toy obfuscator (digits become [?]; a text that is not a string, or that
    opens with a parenthesis, is rejected), a toy signature (the hex of the
    first two bytes, [None] on the empty text as the real one), and plain
    renderings of scalars. They serve the concrete runs below. *)

Definition is_digit (c : ascii) : bool :=
  (48 <=? N_of_ascii c)%N && (N_of_ascii c <=? 57)%N.

Fixpoint redact (s : string) : string :=
  match s with
  | EmptyString => EmptyString
  | String c rest => String (if is_digit c then "?"%char else c) (redact rest)
  end.

Definition decimal (z : Z) : string := NilZero.string_of_int (Z.to_int z).

#[local] Instance sample : Collaborators := {
  obfuscate_sql v :=
    match v with
    | VStr (String "(" _) => Raise ObfuscationError
    | VStr s => Ok (redact s)
    | _ => Raise TypeError
    end;
  compute_sql_signature s :=
    if String.eqb s "" then Ok VNone else Ok (VStr (hexlify (substring 0 2 s)));
  py_repr v :=
    match v with
    | VNone => "None"
    | VStr s => "'" ++ s ++ "'"
    | VInt z => decimal z
    | VBytes b => "b'" ++ b ++ "'"
    | VTime t => "datetime(" ++ decimal t ++ ")"
    end;
  py_str v :=
    match v with
    | VNone => "None"
    | VStr s => s
    | VInt z => decimal z
    | VBytes b => "b'" ++ b ++ "'"
    | VTime t => decimal t
    end
}.

Definition sample_env (rows : list row) : poll_env :=
  {| acquire := Ok tt;
     execute := fun query =>
       if String.eqb query CONNECTIONS_QUERY
       then Ok [[("user_name", VStr "app"); ("connections", VInt 3);
                 ("status", VStr "running"); ("database_name", VStr "shop")]]
       else Ok rows;
     transmit := fun _ => Ok tt;
     db_hostname := "db-1";
     agent_version := "7.0.0";
     tags := ["env:test"];
     now_ms := 1000 |}.

Definition running_row (start : value) (text : string) : row :=
  [("status", VStr "running"); ("text", VStr text); ("start_time", start)].

Definition sleeping_row (start : value) (text : string) : row :=
  [("status", VStr "sleeping"); ("text", VStr text); ("start_time", start)].

(** Three rows of estimated size 40 each under the sample renderings. *)
Definition idle_row (id : Z) : row :=
  [("status", VStr "idle"); ("text", VStr ""); ("start_time", VNone);
   ("id", VInt id)].

Definition sized_rows : list row := [idle_row 11; idle_row 12; idle_row 13].

(** A row with engine handles, a binary hash and a NULL column. *)
Definition handles_row : row :=
  [("status", VStr "running"); ("text", VStr "SELECT 1");
   ("start_time", VTime 100); ("sql_handle", VBytes "ab");
   ("query_hash", VBytes "Az"); ("wait_type", VNone)].

(** A row whose text the sample obfuscator rejects. *)
Definition rejected_row : row := running_row (VTime 100) "(SELECT 1".


(** A row without the [start_time] column. *)
Definition startless_row : row :=
  [("status", VStr "running"); ("text", VStr "SELECT 1")].

(** The sample environment with a transmission channel that is down. *)
Definition offline_env (rows : list row) : poll_env :=
  {| acquire := Ok tt;
     execute := execute (sample_env rows);
     transmit := fun _ => Raise TransmissionError;
     db_hostname := "db-1";
     agent_version := "7.0.0";
     tags := ["env:test"];
     now_ms := 1000 |}.

(** The sample environment with a database that rejects the activity query. *)
Definition broken_env : poll_env :=
  {| acquire := Ok tt;
     execute := fun query =>
       if String.eqb query CONNECTIONS_QUERY then Ok [] else Raise DatabaseError;
     transmit := fun _ => Ok tt;
     db_hostname := "db-1";
     agent_version := "7.0.0";
     tags := ["env:test"];
     now_ms := 1000 |}.

(** Three polls: one row, a database that is down, two rows. *)
Definition sample_polls : list poll_env :=
  [ sample_env [running_row (VTime 100) "SELECT 1"];
    broken_env;
    sample_env [running_row (VTime 90) "SELECT 2";
                running_row (VTime 150) "SELECT 3"] ].

(** ** The row dicts of the fetchers

    [_get_active_connections] and [_get_activity] build their rows the same
    way (lines 110-112 and 122-124): the column names are the first
    components of [cursor.description], and each tuple of
    [cursor.fetchall()] becomes [dict(zip(columns, row))]. The field
    [execute] of a [poll_env] stands for the whole of it; here it is taken
    apart. *)

(** [dict(pairs)]: a later pair overwrites the value of an earlier one with
    the same key, which keeps its position. *)
Definition py_dict (pairs : list (string * value)) : row :=
  fold_left (fun d kv => dict_set (fst kv) (snd kv) d) pairs [].

(** A cursor after [execute]: per column its name and type code, and the
    tuples [fetchall] returns. *)
Record cursor_state : Type := {
  description : list (string * Z);
  fetchall : list (list value)
}.

(** [zip] stops at the shorter of its arguments, as [combine] does. *)
Definition row_dicts (c : cursor_state) : list row :=
  let columns := map fst (description c) in
  map (fun t => py_dict (combine columns t)) (fetchall c).

(** [cursor.execute(query)] followed by the construction of the rows. *)
Definition fetch_rows (run : string -> result cursor_state) (query : string)
  : result (list row) :=
  c <- run query ;; Ok (row_dicts c).

(** The total of the estimates of the rows of a list. *)
Fixpoint total_size `{Collaborators} (rows : list row) : Z :=
  match rows with
  | [] => 0
  | r :: rest => _get_estimated_row_size_bytes r + total_size rest
  end.

(** What one entry adds to [str(row)]: [repr] of the key, a colon and a
    space, [repr] of the value. *)
Definition entry_length `{Collaborators} (kv : string * value) : nat :=
  (String.length (py_repr (VStr (fst kv))) + 2
   + String.length (py_repr (snd kv)))%nat.

(** The value of a lowercase hexadecimal digit. *)
Definition hex_value (c : ascii) : N :=
  match find (fun n => Ascii.eqb (hex_digit n) c)
          [0; 1; 2; 3; 4; 5; 6; 7; 8; 9; 10; 11; 12; 13; 14; 15]%N with
  | Some n => n
  | None => 0%N
  end.

(** The value of what every event the job builds carries by construction. *)
Definition tagged_event (interval : Z) (ev : event) : Prop :=
  ev_ddsource ev = "sqlserver" /\ ev_dbm_type ev = "activity"
  /\ ev_collection_interval ev = interval.

(** A cursor of the activity query in which the name [status] occurs twice,
    once for the session and once for the request. *)
Definition sample_cursor : cursor_state :=
  {| description := [("status", 1); ("text", 1); ("session_id", 3);
                     ("status", 1); ("start_time", 93)];
     fetchall := [ [VStr "sleeping"; VStr "SELECT 1"; VInt 51;
                    VStr "running"; VTime 100];
                   [VStr "sleeping"; VStr "SELECT 2"; VInt 52;
                    VNone; VNone] ] |}.

(** ** Dictionaries *)

Lemma append_assoc (a b c : string) : (a ++ b) ++ c = a ++ (b ++ c).
Proof.
  induction a as [|ch a IH]; simpl; [reflexivity | now rewrite IH].
Qed.

Lemma dict_get_set_same k v d : dict_get k (dict_set k v d) = Some v.
Proof.
  induction d as [|[k' v'] d IH]; simpl.
  - now rewrite String.eqb_refl.
  - destruct (String.eqb k k') eqn:E; simpl; rewrite ?String.eqb_refl, ?E; auto.
Qed.

Lemma dict_get_set_other k k' v d :
  k <> k' -> dict_get k (dict_set k' v d) = dict_get k d.
Proof.
  intros N. apply String.eqb_neq in N.
  induction d as [|[k2 v2] d IH]; simpl.
  - now rewrite N.
  - destruct (String.eqb k' k2) eqn:E; simpl.
    + apply String.eqb_eq in E. subst k2. now rewrite N.
    + now rewrite IH.
Qed.

Lemma dict_get_In k v d : dict_get k d = Some v -> In (k, v) d.
Proof.
  induction d as [|[k' v'] d IH]; simpl; [discriminate|].
  destruct (String.eqb k k') eqn:E.
  - apply String.eqb_eq in E. intros [= ->]. subst. now left.
  - intros H. right. auto.
Qed.

Lemma In_dict_set k v k' v' d :
  In (k, v) (dict_set k' v' d) -> (k, v) = (k', v') \/ In (k, v) d.
Proof.
  induction d as [|[k2 v2] d IH]; simpl.
  - intros [H|[]]; auto.
  - destruct (String.eqb k' k2); simpl; intros [H|H]; auto.
    destruct (IH H); auto.
Qed.


Lemma dict_get_filter_absent (f : string * value -> bool) k d :
  dict_get k d = None -> dict_get k (filter f d) = None.
Proof.
  induction d as [|[k' v'] d IH]; simpl; [reflexivity|].
  destruct (String.eqb k k') eqn:K; [discriminate|]. intros H.
  destruct (f (k', v')); simpl; rewrite ?K; auto.
Qed.

(** The operations the job applies to a dict keep its keys distinct. *)
Lemma keys_dict_set k v d k' :
  In k' (keys (dict_set k v d)) -> k' = k \/ In k' (keys d).
Proof.
  unfold keys. induction d as [|[k2 v2] d IH]; simpl.
  - intros [E|[]]; auto.
  - destruct (String.eqb k k2) eqn:E; simpl.
    + apply String.eqb_eq in E. subst k2. intros [E'|I]; auto.
    + intros [E'|I]; auto. destruct (IH I); auto.
Qed.

Lemma dict_set_NoDup k v d : NoDup (keys d) -> NoDup (keys (dict_set k v d)).
Proof.
  unfold keys. induction d as [|[k2 v2] d IH]; simpl; intros N.
  - constructor; [intros [] | constructor].
  - inversion N as [|? ? Nin Nd]; subst.
    destruct (String.eqb k k2) eqn:E; simpl.
    + apply String.eqb_eq in E. subst k2. now constructor.
    + constructor; [|auto]. intros I. apply keys_dict_set in I.
      destruct I as [->|I]; [|contradiction].
      now rewrite String.eqb_refl in E.
Qed.

Lemma filter_NoDup (f : string * value -> bool) d :
  NoDup (keys d) -> NoDup (keys (filter f d)).
Proof.
  unfold keys. induction d as [|[k v] d IH]; simpl; intros N; [constructor|].
  inversion N as [|? ? Nin Nd]; subst.
  destruct (f (k, v)); simpl; [|auto]. constructor; [|auto].
  intros I. apply Nin. apply in_map_iff in I. destruct I as ([k' v'] & E & I).
  apply filter_In in I. destruct I as [I _]. apply in_map_iff. eauto.
Qed.

Lemma sanitize_row_NoDup `{Collaborators} r s o :
  NoDup (keys r) -> _sanitize_row r s = Ok o -> NoDup (keys o).
Proof.
  intros N. unfold _sanitize_row. fold kept_by_comprehension.
  set (d1 := dict_set "text" (VStr s) (filter kept_by_comprehension r)).
  assert (N1 : NoDup (keys d1)) by (apply dict_set_NoDup, filter_NoDup, N).
  assert (P : forall d o', NoDup (keys d) ->
              match dict_get "query_plan_hash" d with
              | Some h => hex <- _hash_to_hex h ;;
                          Ok (dict_set "query_plan_hash" hex d)
              | None => Ok d
              end = Ok o' -> NoDup (keys o')).
  { intros d o' Nd. destruct (dict_get "query_plan_hash" d) as [h|].
    - destruct (_hash_to_hex h); cbn; [|discriminate].
      intros [= <-]. now apply dict_set_NoDup.
    - now intros [= <-]. }
  destruct (dict_get "query_hash" d1) as [h|]; cbn.
  - destruct (_hash_to_hex h); cbn; [|discriminate].
    apply P. now apply dict_set_NoDup.
  - now apply P.
Qed.

(** ** The exclusion predicate *)

Lemma extra_activity_query_args_render `{Collaborators} (self : job) :
  truthy (_activity_last_query_start self) = true ->
  _get_extra_activity_query_args self =
    " WHERE "
      ++ render (activity_filter (_activity_last_query_start self)
                   (collection_interval self))
      ++ " ORDER BY at.transaction_begin_time ASC".
Proof.
  intros T. unfold _get_extra_activity_query_args. rewrite T.
  cbn. repeat (rewrite !append_assoc; cbn). reflexivity.
Qed.

Lemma activity_filter_keeps (T interval : Z) (sid : option Z) (b : Z) :
  where_keeps (activity_filter (VTime T) interval) (candidate sid (Some b))
  = negb (match sid with None => true | Some _ => false end && (T - b <? interval)).
Proof.
  unfold where_keeps. cbn. destruct sid; cbn; [reflexivity|].
  destruct (T - b <? interval); reflexivity.
Qed.

Example extra_activity_query_args_sample :
  _get_extra_activity_query_args
    (set_last_query_start (init (Some 10)) (VTime 100))
  = " WHERE NOT (r.session_id is NULL AND DATEDIFF(second, at.transaction_begin_time, '100') < 10) ORDER BY at.transaction_begin_time ASC".
Proof. reflexivity. Qed.

Example extra_activity_query_args_first_poll :
  _get_extra_activity_query_args (init None)
  = " ORDER BY at.transaction_begin_time ASC".
Proof. reflexivity. Qed.

(** C1, as stated, fails. With the attribute at 100 and an interval of 10
    seconds, an idle transaction begun 5 seconds before the attribute is
    excluded, and an idle transaction begun 50 seconds before it is
    fetched: the reverse of the claim on both. *)
Lemma C1_counterexample :
  _get_extra_activity_query_args
    (set_last_query_start (init (Some 10)) (VTime 100))
  = " WHERE " ++ render (activity_filter (VTime 100) 10)
      ++ " ORDER BY at.transaction_begin_time ASC"
  /\ where_keeps (activity_filter (VTime 100) 10) (candidate None (Some 95)) = false
  /\ 100 - 95 <= 10
  /\ where_keeps (activity_filter (VTime 100) 10) (candidate None (Some 50)) = true
  /\ 100 - 50 > 10.
Proof. repeat split; try reflexivity; lia. Qed.

(** C1, amended. Once the attribute is a timestamp [T], the text the job
    interpolates is the rendering of [activity_filter], and that predicate
    excludes exactly the rows whose request side is absent and whose
    transaction began less than [collection_interval] seconds before [T]
    (or after it): idle transactions begun at least [collection_interval]
    seconds before [T], and all rows with a request, are fetched. *)
Theorem C1_exclusion_predicate `{Collaborators} (self : job) (T : Z) :
  let self' := set_last_query_start self (VTime T) in
  _get_extra_activity_query_args self' =
    " WHERE " ++ render (activity_filter (VTime T) (collection_interval self))
      ++ " ORDER BY at.transaction_begin_time ASC"
  /\ forall (r_session_id : option Z) (transaction_begin_time : Z),
       where_keeps (activity_filter (VTime T) (collection_interval self))
         (candidate r_session_id (Some transaction_begin_time)) = false
       <-> (r_session_id = None
            /\ T - transaction_begin_time < collection_interval self).
Proof.
  split.
  - apply (extra_activity_query_args_render
             (set_last_query_start self (VTime T))). reflexivity.
  - intros sid b. rewrite activity_filter_keeps.
    destruct sid as [s|]; cbn.
    + split; [discriminate | intros [E _]; discriminate].
    + destruct (Z.ltb_spec (T - b) (collection_interval self)); cbn;
        split; auto; try discriminate. intros [_ L]. lia.
Qed.

(** ** Sanitization *)

Lemma hex_digit_is_hex n : is_hex_char (hex_digit n) = true.
Proof.
  destruct n as [|p]; [reflexivity|].
  do 4 (destruct p as [p|p|]; try reflexivity).
Qed.

Lemma hexlify_is_hex b : is_hex_string (VStr (hexlify b)) = true.
Proof.
  induction b as [|c b IH]; simpl; [reflexivity|].
  rewrite !hex_digit_is_hex. exact IH.
Qed.



(** The steps of [_sanitize_row], named. *)
Lemma sanitize_row_steps r s o :
  _sanitize_row r s = Ok o ->
  exists d2,
    let d1 := dict_set "text" (VStr s) (filter kept_by_comprehension r) in
    (d2 = d1 /\ dict_get "query_hash" d1 = None
     \/ exists h hex, dict_get "query_hash" d1 = Some h
                      /\ _hash_to_hex h = Ok hex
                      /\ d2 = dict_set "query_hash" hex d1)
    /\ (o = d2 /\ dict_get "query_plan_hash" d2 = None
        \/ exists h hex, dict_get "query_plan_hash" d2 = Some h
                         /\ _hash_to_hex h = Ok hex
                         /\ o = dict_set "query_plan_hash" hex d2).
Proof.
  unfold _sanitize_row. fold kept_by_comprehension.
  set (d1 := dict_set "text" (VStr s) (filter kept_by_comprehension r)).
  destruct (dict_get "query_hash" d1) as [h|] eqn:Q; cbn.
  - destruct (_hash_to_hex h) as [hex|e] eqn:X; cbn; [|discriminate].
    intros E. exists (dict_set "query_hash" hex d1). split.
    + right. exists h, hex. auto.
    + destruct (dict_get "query_plan_hash" (dict_set "query_hash" hex d1))
        as [h'|] eqn:P.
      * destruct (_hash_to_hex h') as [hex'|e] eqn:X'; cbn in E; [|discriminate].
        injection E as <-. right. exists h', hex'. auto.
      * injection E as <-. left. auto.
  - intros E. exists d1. split; [left; auto|].
    destruct (dict_get "query_plan_hash" d1) as [h'|] eqn:P.
    + destruct (_hash_to_hex h') as [hex'|e] eqn:X'; cbn in E; [|discriminate].
      injection E as <-. right. exists h', hex'. auto.
    + injection E as <-. left. auto.
Qed.

(** Keys other than the three [_sanitize_row] writes go through the
    comprehension only. *)
Lemma sanitize_row_other_key r s o k :
  _sanitize_row r s = Ok o ->
  k <> "text" -> k <> "query_hash" -> k <> "query_plan_hash" ->
  dict_get k o = dict_get k (filter kept_by_comprehension r).
Proof.
  intros S Nt Nq Np. destruct (sanitize_row_steps _ _ _ S) as (d2 & H2 & Ho).
  cbn zeta in H2.
  assert (D2 : dict_get k d2
               = dict_get k (filter kept_by_comprehension r)).
  { destruct H2 as [[-> _]|(h & hex & _ & _ & ->)];
      rewrite ?(dict_get_set_other k "query_hash") by assumption;
      now rewrite dict_get_set_other by assumption. }
  destruct Ho as [[-> _]|(h & hex & _ & _ & ->)];
    rewrite ?(dict_get_set_other k "query_plan_hash") by assumption;
    exact D2.
Qed.



Lemma sanitize_row_text r s o :
  _sanitize_row r s = Ok o -> dict_get "text" o = Some (VStr s).
Proof.
  intros S. destruct (sanitize_row_steps _ _ _ S) as (d2 & H2 & Ho).
  cbn zeta in H2.
  assert (D2 : dict_get "text" d2 = Some (VStr s)).
  { destruct H2 as [[-> _]|(h & hex & _ & _ & ->)];
      rewrite ?(dict_get_set_other "text" "query_hash") by discriminate;
      apply dict_get_set_same. }
  destruct Ho as [[-> _]|(h & hex & _ & _ & ->)];
    rewrite ?(dict_get_set_other "text" "query_plan_hash") by discriminate;
    exact D2.
Qed.


(** ** The loop of the normalizer *)

Section Loop.
Context {C : Collaborators}.

Lemma normalize_loop_cons B r rest w size acc :
  normalize_loop B (r :: rest) w size acc =
  match first_poll_sleeping w r with
  | Raise e => (Raise e, w)
  | Ok true => normalize_loop B rest w size acc
  | Ok false =>
      match _set_last_activity w (fst (obfuscate_row r)) with
      | Raise e => (Raise e, w)
      | Ok w' =>
          match prepare r with
          | Raise e => (Raise e, w')
          | Ok r2 =>
              if size + _get_estimated_row_size_bytes r2 >? B
              then (Ok acc, w')
              else normalize_loop B rest w'
                     (size + _get_estimated_row_size_bytes r2) (acc ++ [r2])
          end
      end
  end.
Proof.
  cbn [normalize_loop]. unfold prepare.
  destruct (first_poll_sleeping w r) as [[|]|e]; try reflexivity.
  destruct (obfuscate_row r) as [r1 s]. reflexivity.
Qed.

Lemma obfuscate_row_failed r :
  signature_failed r -> obfuscate_row r = (r, OBFUSCATION_FAILED).
Proof.
  unfold obfuscate_row, dict_lookup.
  intros [T|[(t & e & T & O)|(t & s & e & T & O & G)]]; rewrite T; cbn.
  - reflexivity.
  - now rewrite O.
  - rewrite O. cbn. now rewrite G.
Qed.


(** The row handed on by the [try] block answers lookups of every key but
    [query_signature] as the fetched row does. *)
Lemma obfuscate_row_get r k :
  k <> "query_signature" ->
  dict_get k (fst (obfuscate_row r)) = dict_get k r.
Proof.
  intros N. unfold obfuscate_row, dict_lookup.
  destruct (dict_get "text" r) as [t|]; cbn; [|reflexivity].
  destruct (obfuscate_sql t) as [s|e]; cbn; [|reflexivity].
  destruct (compute_sql_signature s); cbn; [|reflexivity].
  now apply dict_get_set_other.
Qed.

Lemma subseq_none rows : subseq [] rows.
Proof. induction rows; constructor; auto. Qed.

(** Whatever the normalizer returns is, row for row, [prepare] of rows of
    its input, in the input's order. *)
Lemma normalize_loop_sound B rows :
  forall w size acc out w',
    normalize_loop B rows w size acc = (Ok out, w') ->
    exists kept outs,
      out = (acc ++ outs)%list /\ subseq kept rows
      /\ Forall2 (fun r o => prepare r = Ok o) kept outs.
Proof.
  induction rows as [|r rest IH]; intros w size acc out w'.
  - cbn. intros [= <- <-]. exists [], []. rewrite app_nil_r.
    repeat split; constructor.
  - rewrite normalize_loop_cons.
    destruct (first_poll_sleeping w r) as [[|]|e]; [| |discriminate].
    + intros L. destruct (IH _ _ _ _ _ L) as (kept & outs & E & S & F).
      exists kept, outs. repeat split; auto. now constructor.
    + destruct (_set_last_activity w (fst (obfuscate_row r))) as [w1|e];
        [|discriminate].
      destruct (prepare r) as [r2|e] eqn:P; [|discriminate].
      destruct (size + _get_estimated_row_size_bytes r2 >? B).
      * intros [= <- <-]. exists [], []. rewrite app_nil_r.
        repeat split; [apply subseq_none | constructor].
      * intros L. destruct (IH _ _ _ _ _ L) as (kept & outs & E & S & F).
        exists (r :: kept), (r2 :: outs). repeat split.
        -- rewrite E, <- app_assoc. reflexivity.
        -- now constructor.
        -- now constructor.
Qed.

Lemma subseq_In kept rows r : subseq kept rows -> In r kept -> In r rows.
Proof.
  induction 1; cbn; auto. intros [E|I]; auto.
Qed.

End Loop.



(** ** Failures inside the loop *)

Section Failures.
Context {C : Collaborators}.


Lemma first_poll_sleeping_raises w r e :
  first_poll_sleeping w r = Raise e ->
  e = KeyError "status" /\ is_None w = true /\ dict_get "status" r = None.
Proof.
  unfold first_poll_sleeping, dict_lookup.
  destruct (is_None w); [|discriminate].
  destruct (dict_get "status" r); cbn; [discriminate|].
  intros [= <-]. auto.
Qed.

Lemma set_last_activity_raises w r e :
  _set_last_activity w r = Raise e -> e = KeyError "start_time" \/ e = TypeError.
Proof.
  unfold _set_last_activity, dict_lookup.
  destruct (dict_get "start_time" r) as [st|]; cbn; [|intros [= <-]; auto].
  destruct (is_None st); [discriminate|].
  destruct (is_None w); [discriminate|].
  destruct st, w; cbn; try discriminate; intros [= <-]; auto.
Qed.

Lemma sanitize_row_raises r s e : _sanitize_row r s = Raise e -> e = TypeError.
Proof.
  unfold _sanitize_row.
  set (d1 := dict_set "text" (VStr s) _).
  assert (X : forall h e', _hash_to_hex h = Raise e' -> e' = TypeError).
  { intros h e'. destruct h; cbn; try discriminate; now intros [= <-]. }
  destruct (dict_get "query_hash" d1) as [h|]; cbn.
  - destruct (_hash_to_hex h) as [hex|e1] eqn:E1; cbn;
      [|intros [= <-]; eauto].
    destruct (dict_get "query_plan_hash" _) as [h'|]; [|discriminate].
    destruct (_hash_to_hex h') as [hex'|e2] eqn:E2; cbn;
      [discriminate | intros [= <-]; eauto].
  - destruct (dict_get "query_plan_hash" d1) as [h'|]; [|discriminate].
    destruct (_hash_to_hex h') as [hex'|e2] eqn:E2; cbn;
      [discriminate | intros [= <-]; eauto].
Qed.

Lemma prepare_raises r e : prepare r = Raise e -> e = TypeError.
Proof.
  unfold prepare. destruct (obfuscate_row r) as [r1 s].
  apply sanitize_row_raises.
Qed.

(** What leaves the normalizer as an exception is a missing [status] or
    [start_time], or a type error of a comparison or of [hexlify]; what
    the obfuscator and the signature function raise does not. *)
Lemma normalize_loop_raises B rows :
  forall w size acc e,
    fst (normalize_loop B rows w size acc) = Raise e ->
    e = KeyError "status" \/ e = KeyError "start_time" \/ e = TypeError.
Proof.
  induction rows as [|r rest IH]; intros w size acc e.
  - cbn. discriminate.
  - rewrite normalize_loop_cons.
    destruct (first_poll_sleeping w r) as [[|]|e1] eqn:S.
    + apply IH.
    + destruct (_set_last_activity w (fst (obfuscate_row r))) as [w1|e1] eqn:A.
      * destruct (prepare r) as [r2|e2] eqn:P.
        -- destruct (_ >? B); [cbn; discriminate | apply IH].
        -- cbn. intros [= <-]. apply prepare_raises in P. auto.
      * cbn. intros [= <-]. apply set_last_activity_raises in A.
        destruct A; auto.
    + cbn. intros [= <-]. apply first_poll_sleeping_raises in S.
      destruct S as [-> _]. auto.
Qed.

Lemma collect_activity_after_fetch env self connections rows u :
  acquire env = Ok u ->
  _get_active_connections env = Ok connections ->
  _get_activity env self = Ok rows ->
  collect_activity env self =
  let (outcome, w) :=
    _normalize_queries_and_filter_rows (_activity_last_query_start self)
      rows MAX_PAYLOAD_BYTES in
  let self1 := set_last_query_start self w in
  match outcome with
  | Raise _ => on_error self1
  | Ok normalized_rows =>
      let ev := _create_activity_event env self1 normalized_rows connections in
      match transmit env ev with
      | Raise _ => on_error self1
      | Ok _ => on_success self1 ev
      end
  end.
Proof.
  intros A Cn Ac. unfold collect_activity. rewrite A, Cn, Ac. reflexivity.
Qed.

End Failures.

(** C6. When the obfuscator raises on the text of a row the loop does not
    skip, the loop goes on with the fixed text as [obfuscated_statement]:
    the row advances the attribute through [_set_last_activity], is
    sanitized with the fixed text as its [text], is counted against the
    budget and appended when it fits, and the loop continues with the rest.
    Nothing the obfuscator raises leaves the normalizer: the only
    exceptions it lets out are a missing [status] or [start_time] and type
    errors. *)
Theorem C6_obfuscation_failure_recovered `{Collaborators}
    (B : Z) (r : row) (rest : list row) (w : value) (size : Z) (acc : list row)
    (t : value) (e : exn) :
  dict_get "text" r = Some t ->
  obfuscate_sql t = Raise e ->
  first_poll_sleeping w r = Ok false ->
  normalize_loop B (r :: rest) w size acc =
    match _set_last_activity w r with
    | Raise e' => (Raise e', w)
    | Ok w' =>
        match _sanitize_row r OBFUSCATION_FAILED with
        | Raise e' => (Raise e', w')
        | Ok o =>
            if size + _get_estimated_row_size_bytes o >? B then (Ok acc, w')
            else normalize_loop B rest w'
                   (size + _get_estimated_row_size_bytes o) (acc ++ [o])
        end
    end
  /\ (forall o, _sanitize_row r OBFUSCATION_FAILED = Ok o ->
                dict_get "text" o = Some (VStr OBFUSCATION_FAILED))
  /\ (forall e', fst (normalize_loop B (r :: rest) w size acc) = Raise e' ->
                 e' = KeyError "status" \/ e' = KeyError "start_time"
                 \/ e' = TypeError).
Proof.
  intros T O S.
  assert (F : obfuscate_row r = (r, OBFUSCATION_FAILED)).
  { apply obfuscate_row_failed. right. left. eauto. }
  repeat split.
  - rewrite normalize_loop_cons, S. unfold prepare. rewrite F. reflexivity.
  - intros o. apply sanitize_row_text.
  - apply normalize_loop_raises.
Qed.

Lemma C6_obfuscation_failure_recovered_witness :
  dict_get "text" rejected_row = Some (VStr "(SELECT 1")
  /\ obfuscate_sql (VStr "(SELECT 1") = Raise ObfuscationError
  /\ first_poll_sleeping VNone rejected_row = Ok false
  /\ normalize_loop MAX_PAYLOAD_BYTES
       [rejected_row; running_row (VTime 90) "SELECT 2"] VNone 0 []
     = (Ok [ [("status", VStr "running");
              ("text", VStr "ERROR: failed to obfuscate");
              ("start_time", VTime 100)];
             [("status", VStr "running"); ("text", VStr "SELECT ?");
              ("start_time", VTime 90); ("query_signature", VStr "5345")] ],
        VTime 100).
Proof.
  do 3 (split; [reflexivity|]).
  rewrite (proj1 (C6_obfuscation_failure_recovered (H := sample)
                    MAX_PAYLOAD_BYTES rejected_row
                    [running_row (VTime 90) "SELECT 2"] VNone 0 []
                    (VStr "(SELECT 1") ObfuscationError
                    eq_refl eq_refl eq_refl)).
  reflexivity.
Defined.

(** C8. On a fetch whose rows have no [query_signature] column, every row
    the normalizer returns is [prepare] of a row of the input, and when the
    [try] block failed on that row (no text, the obfuscator raised, or the
    signature function raised) the returned row has no [query_signature]
    key and carries the fixed text. *)
Theorem C8_no_signature_on_failure `{Collaborators}
    (w : value) (rows : list row) (B : Z) (out : list row) (w' : value) :
  (forall r, In r rows -> dict_get "query_signature" r = None) ->
  _normalize_queries_and_filter_rows w rows B = (Ok out, w') ->
  exists kept,
    subseq kept rows
    /\ Forall2
         (fun r o =>
            prepare r = Ok o
            /\ (signature_failed r ->
                dict_get "query_signature" o = None
                /\ dict_get "text" o = Some (VStr OBFUSCATION_FAILED)))
         kept out.
Proof.
  intros Q N. apply normalize_loop_sound in N.
  destruct N as (kept & outs & -> & S & F). cbn. exists kept. split; [exact S|].
  assert (K : forall r, In r kept -> dict_get "query_signature" r = None).
  { intros r I. apply Q. eapply subseq_In; eauto. }
  clear S Q. induction F as [|r o kept outs P F IH]; constructor.
  - split; [exact P|]. intros Fl. unfold prepare in P.
    rewrite (obfuscate_row_failed r Fl) in P. split.
    + rewrite (sanitize_row_other_key _ _ _ "query_signature" P)
        by discriminate.
      apply dict_get_filter_absent. apply K. now left.
    + eapply sanitize_row_text; eauto.
  - apply IH. intros r' I. apply K. now right.
Qed.

Lemma C8_no_signature_on_failure_witness :
  (forall r, In r [rejected_row] -> dict_get "query_signature" r = None)
  /\ exists kept,
       subseq kept [rejected_row]
       /\ Forall2
            (fun r o =>
               prepare r = Ok o
               /\ (signature_failed r ->
                   dict_get "query_signature" o = None
                   /\ dict_get "text" o = Some (VStr OBFUSCATION_FAILED)))
            kept
            [ [("status", VStr "running");
               ("text", VStr "ERROR: failed to obfuscate");
               ("start_time", VTime 100)] ].
Proof.
  assert (Q : forall r, In r [rejected_row] ->
                        dict_get "query_signature" r = None).
  { intros r [<-|[]]. reflexivity. }
  split; [exact Q|].
  apply (C8_no_signature_on_failure (H := sample) VNone [rejected_row]
           MAX_PAYLOAD_BYTES _ (VTime 100) Q).
  reflexivity.
Defined.

(** ** The first-poll rule *)

Lemma first_poll_sleeping_unset `{Collaborators} r :
  dict_get "status" r = Some (VStr "sleeping") ->
  first_poll_sleeping VNone r = Ok true.
Proof. unfold first_poll_sleeping, dict_lookup. cbn. now intros ->. Qed.


(** C2, the run that departs from it. On a first poll (attribute unset)
    over a running row followed by a sleeping row, the running row sets the
    attribute, the test of line 146 is then false for the sleeping row, and
    the normalizer returns both rows; so it does when the sleeping row has
    no [start_time]. *)
Theorem C2_sleeping_row_after_running_row_is_returned :
  _normalize_queries_and_filter_rows VNone
    [running_row (VTime 100) "SELECT 1"; sleeping_row (VTime 200) "SELECT 22"]
    MAX_PAYLOAD_BYTES
  = (Ok [ [("status", VStr "running"); ("text", VStr "SELECT ?");
           ("start_time", VTime 100); ("query_signature", VStr "5345")];
          [("status", VStr "sleeping"); ("text", VStr "SELECT ??");
           ("start_time", VTime 200); ("query_signature", VStr "5345")] ],
     VTime 200)
  /\ _normalize_queries_and_filter_rows VNone
       [running_row (VTime 100) "SELECT 1"; sleeping_row VNone "SELECT 22"]
       MAX_PAYLOAD_BYTES
     = (Ok [ [("status", VStr "running"); ("text", VStr "SELECT ?");
              ("start_time", VTime 100); ("query_signature", VStr "5345")];
             [("status", VStr "sleeping"); ("text", VStr "SELECT ??");
              ("query_signature", VStr "5345")] ],
        VTime 100).
Proof. split; reflexivity. Qed.

(** The part of C2 the loop does keep: a sleeping row met while the
    attribute is unset is skipped, whatever follows. *)
Lemma sleeping_row_skipped_while_unset `{Collaborators} B r rest size acc :
  dict_get "status" r = Some (VStr "sleeping") ->
  normalize_loop B (r :: rest) VNone size acc
  = normalize_loop B rest VNone size acc.
Proof.
  intros S. rewrite normalize_loop_cons, (first_poll_sleeping_unset r S).
  reflexivity.
Qed.

(** ** The error paths of a poll *)

(** C7. When the connection-summary fetch or the activity fetch raises,
    the poll returns the empty list, has sent no event, has counted one
    more error, has recorded no timing and leaves the attribute as it was
    before the poll. *)
Theorem C7_fetch_failure_aborts `{Collaborators}
    (env : poll_env) (self : job) (e : exn) :
  _get_active_connections env = Raise e \/ _get_activity env self = Raise e ->
  fst (collect_activity env self) = Some []
  /\ submitted (snd (collect_activity env self)) = submitted self
  /\ error_count (snd (collect_activity env self)) = S (error_count self)
  /\ timing_count (snd (collect_activity env self)) = timing_count self
  /\ _activity_last_query_start (snd (collect_activity env self))
     = _activity_last_query_start self.
Proof.
  intros F. assert (E : collect_activity env self = on_error self).
  { unfold collect_activity. destruct (acquire env); [|reflexivity].
    destruct F as [F|F].
    - now rewrite F.
    - destruct (_get_active_connections env); [|reflexivity]. now rewrite F. }
  rewrite E. repeat split.
Qed.

Lemma C7_fetch_failure_aborts_witness :
  (_get_active_connections broken_env = Raise DatabaseError
   \/ _get_activity broken_env
        (set_last_query_start (init None) (VTime 100)) = Raise DatabaseError)
  /\ fst (collect_activity broken_env
            (set_last_query_start (init None) (VTime 100))) = Some []
  /\ _activity_last_query_start
       (snd (collect_activity broken_env
               (set_last_query_start (init None) (VTime 100)))) = VTime 100.
Proof.
  assert (F : _get_active_connections broken_env = Raise DatabaseError
              \/ _get_activity broken_env
                   (set_last_query_start (init None) (VTime 100))
                 = Raise DatabaseError) by (right; reflexivity).
  split; [exact F|].
  destruct (C7_fetch_failure_aborts (H := sample) broken_env
              (set_last_query_start (init None) (VTime 100)) DatabaseError F)
    as (R & _ & _ & _ & W).
  split; [exact R | exact W].
Defined.

(** C9. When both fetches and the normalizer went through and the
    transmission of the event raises, the poll returns the empty list, has
    sent no event and has counted one more error, as on a fetch failure;
    but the attribute is the one the normalizer left, and the next poll
    builds its query from it. *)
Theorem C9_transmission_failure_keeps_advance `{Collaborators}
    (env : poll_env) (self : job) (connections rows out : list row)
    (w' : value) (e : exn) :
  acquire env = Ok tt ->
  _get_active_connections env = Ok connections ->
  _get_activity env self = Ok rows ->
  _normalize_queries_and_filter_rows (_activity_last_query_start self) rows
    MAX_PAYLOAD_BYTES = (Ok out, w') ->
  transmit env
    (_create_activity_event env (set_last_query_start self w') out connections)
    = Raise e ->
  fst (collect_activity env self) = Some []
  /\ submitted (snd (collect_activity env self)) = submitted self
  /\ error_count (snd (collect_activity env self)) = S (error_count self)
  /\ _activity_last_query_start (snd (collect_activity env self)) = w'
  /\ _get_extra_activity_query_args (snd (collect_activity env self))
     = _get_extra_activity_query_args (set_last_query_start self w').
Proof.
  intros A Cn Ac N T.
  rewrite (collect_activity_after_fetch env self connections rows tt A Cn Ac).
  rewrite N. cbn zeta. rewrite T. repeat split.
Qed.

Lemma C9_transmission_failure_keeps_advance_witness :
  _activity_last_query_start (init None) = VNone
  /\ _activity_last_query_start
       (snd (collect_activity
               (offline_env [running_row (VTime 100) "SELECT 1"]) (init None)))
     = VTime 100
  /\ submitted
       (snd (collect_activity
               (offline_env [running_row (VTime 100) "SELECT 1"]) (init None)))
     = []
  /\ _get_extra_activity_query_args
       (snd (collect_activity
               (offline_env [running_row (VTime 100) "SELECT 1"]) (init None)))
     = " WHERE NOT (r.session_id is NULL AND DATEDIFF(second, at.transaction_begin_time, '100') < 10) ORDER BY at.transaction_begin_time ASC".
Proof.
  split; [reflexivity|].
  destruct (C9_transmission_failure_keeps_advance (H := sample)
              (offline_env [running_row (VTime 100) "SELECT 1"]) (init None)
              [[("user_name", VStr "app"); ("connections", VInt 3);
                ("status", VStr "running"); ("database_name", VStr "shop")]]
              [running_row (VTime 100) "SELECT 1"]
              [[("status", VStr "running"); ("text", VStr "SELECT ?");
                ("start_time", VTime 100); ("query_signature", VStr "5345")]]
              (VTime 100) TransmissionError
              eq_refl eq_refl eq_refl eq_refl eq_refl)
    as (_ & S & _ & W & Q).
  split; [exact W|]. split; [exact S|]. rewrite Q. reflexivity.
Defined.




(** ** The byte budget *)

Section Budget.
Context {C : Collaborators}.

Lemma row_size_nonneg r : 0 <= row_size r.
Proof.
  unfold row_size, _get_estimated_row_size_bytes.
  destruct (prepare r); lia.
Qed.

Lemma cumulative_size_nonneg rows : 0 <= cumulative_size rows.
Proof.
  induction rows as [|r rows IH]; cbn; [lia|].
  pose proof (row_size_nonneg r). lia.
Qed.

Lemma hash_fields_typed_In r k v :
  hash_fields_typed r = true -> In (k, v) r ->
  k = "query_hash" \/ k = "query_plan_hash" ->
  v = VNone \/ exists b, v = VBytes b.
Proof.
  intros T I K. unfold hash_fields_typed in T.
  rewrite forallb_forall in T. specialize (T _ I). cbn in T.
  assert (E : (String.eqb k "query_hash" || String.eqb k "query_plan_hash")%bool
              = true).
  { destruct K as [-> | ->]; reflexivity. }
  rewrite E in T. destruct v; try discriminate; eauto.
Qed.

Lemma hash_fields_typed_set r k v :
  k <> "query_hash" -> k <> "query_plan_hash" ->
  hash_fields_typed r = true -> hash_fields_typed (dict_set k v r) = true.
Proof.
  intros Nq Np T. unfold hash_fields_typed in *.
  rewrite forallb_forall in *. intros [k0 v0] I.
  apply In_dict_set in I. destruct I as [[= -> ->]|I]; [|auto]. cbn.
  apply String.eqb_neq in Nq, Np. now rewrite Nq, Np.
Qed.

(** On typed hashes [_sanitize_row] returns. *)
Lemma sanitize_row_total r s :
  hash_fields_typed r = true -> exists o, _sanitize_row r s = Ok o.
Proof.
  intros T. unfold _sanitize_row. fold kept_by_comprehension.
  set (d1 := dict_set "text" (VStr s) (filter kept_by_comprehension r)).
  assert (B1 : forall k v, In (k, v) d1 ->
                 k = "query_hash" \/ k = "query_plan_hash" ->
                 exists b, v = VBytes b).
  { intros k v I K. apply In_dict_set in I. destruct I as [[= -> _]|I].
    - destruct K; discriminate.
    - apply filter_In in I. destruct I as [I Kp].
      destruct (hash_fields_typed_In r k v T I K) as [->|X]; [|exact X].
      unfold kept_by_comprehension in Kp. cbn in Kp.
      now rewrite andb_false_r in Kp. }
  assert (P : forall d, (forall k v, In (k, v) d -> k = "query_plan_hash" ->
                                     exists b, v = VBytes b) ->
              exists o,
                match dict_get "query_plan_hash" d with
                | Some h => hex <- _hash_to_hex h ;;
                            Ok (dict_set "query_plan_hash" hex d)
                | None => Ok d
                end = Ok o).
  { intros d Bd. destruct (dict_get "query_plan_hash" d) as [h|] eqn:G; eauto.
    apply dict_get_In in G. destruct (Bd _ _ G eq_refl) as [b ->]. cbn. eauto. }
  destruct (dict_get "query_hash" d1) as [h|] eqn:G; cbn.
  - apply dict_get_In in G. destruct (B1 _ _ G (or_introl eq_refl)) as [b ->].
    cbn. apply P. intros k v I K. apply In_dict_set in I.
    destruct I as [[= -> _]|I]; [discriminate | eauto].
  - apply P. intros k v I K. eauto.
Qed.

Lemma obfuscate_row_hashes_typed r :
  hash_fields_typed r = true ->
  hash_fields_typed (fst (obfuscate_row r)) = true.
Proof.
  intros T. unfold obfuscate_row, dict_lookup.
  destruct (dict_get "text" r) as [t|]; cbn; [|exact T].
  destruct (obfuscate_sql t) as [s|e]; cbn; [|exact T].
  destruct (compute_sql_signature s); cbn; [|exact T].
  apply hash_fields_typed_set; [discriminate | discriminate | exact T].
Qed.

Lemma prepare_total r :
  hash_fields_typed r = true -> exists o, prepare r = Ok o.
Proof.
  intros T. unfold prepare. pose proof (obfuscate_row_hashes_typed r T) as T1.
  destruct (obfuscate_row r) as [r1 s]. now apply sanitize_row_total.
Qed.

(** On a datetime-or-NULL [start_time] and a datetime-or-unset attribute
    [_set_last_activity] returns, and returns such an attribute. *)
Lemma set_last_activity_total w r :
  time_or_None w = true ->
  match dict_get "start_time" r with
  | Some VNone | Some (VTime _) => true
  | _ => false
  end = true ->
  exists w', _set_last_activity w r = Ok w' /\ time_or_None w' = true.
Proof.
  intros W S. unfold _set_last_activity, dict_lookup.
  destruct (dict_get "start_time" r) as [[]|]; try discriminate; cbn.
  - eauto.
  - destruct w; try discriminate; cbn; eauto.
    destruct (t >? t0); eauto.
Qed.

Lemma fetched_row_parts r :
  fetched_row r = true ->
  (exists s, dict_get "status" r = Some s)
  /\ match dict_get "start_time" (fst (obfuscate_row r)) with
     | Some VNone | Some (VTime _) => true
     | _ => false
     end = true
  /\ hash_fields_typed r = true.
Proof.
  unfold fetched_row, dict_mem. intros F.
  apply andb_true_iff in F. destruct F as [F Hh].
  apply andb_true_iff in F. destruct F as [St Tm].
  repeat split; [| |exact Hh].
  - destruct (dict_get "status" r); [eauto | discriminate].
  - now rewrite obfuscate_row_get by discriminate.
Qed.

(** The loop cuts at the first row whose size takes the running total
    over the budget: here the row after the first [j]. *)
Lemma normalize_loop_cut B rows :
  forall j w size acc,
    time_or_None w = true ->
    forallb fetched_row (firstn (S j) rows) = true ->
    none_suppressed w (firstn (S j) rows) = true ->
    size + cumulative_size (firstn j rows) <= B
      < size + cumulative_size (firstn (S j) rows) ->
    exists outs w',
      normalize_loop B rows w size acc = (Ok (acc ++ outs)%list, w')
      /\ Forall2 (fun r o => prepare r = Ok o) (firstn j rows) outs.
Proof.
  induction rows as [|r rest IH]; intros j w size acc W F N [Lo Hi].
  - cbn in Hi. rewrite firstn_nil in Lo. cbn in Lo. lia.
  - rewrite firstn_cons in F, N, Hi. cbn [forallb] in F.
    apply andb_true_iff in F. destruct F as [Fr F].
    destruct (fetched_row_parts r Fr) as ((s & St) & Tm & Hh).
    cbn [none_suppressed] in N.
    destruct (first_poll_sleeping w r) as [[|]|e] eqn:S; try discriminate.
    destruct (set_last_activity_total w _ W Tm) as (w1 & A & W1).
    rewrite A in N.
    destruct (prepare_total r Hh) as (o & P).
    rewrite normalize_loop_cons, S, A, P.
    cbn [cumulative_size] in Hi.
    assert (Sz : row_size r = _get_estimated_row_size_bytes o)
      by (unfold row_size; now rewrite P).
    destruct j as [|j].
    + cbn in Lo, Hi.
      assert (G : (size + _get_estimated_row_size_bytes o >? B) = true)
        by (apply Z.gtb_lt; lia).
      rewrite G. exists [], w1. rewrite app_nil_r. split; constructor.
    + rewrite firstn_cons in Lo. cbn [cumulative_size] in Lo.
      pose proof (cumulative_size_nonneg (firstn j rest)) as Nn.
      assert (G : (size + _get_estimated_row_size_bytes o >? B) = false).
      { destruct (Z.gtb_spec (size + _get_estimated_row_size_bytes o) B);
          [lia | reflexivity]. }
      rewrite G.
      destruct (IH j w1 (size + _get_estimated_row_size_bytes o)
                  (acc ++ [o])%list W1 F N) as (outs & w' & L & F2);
        [lia|].
      exists (o :: outs), w'. split.
      * rewrite L, <- app_assoc. reflexivity.
      * rewrite firstn_cons. constructor; assumption.
Qed.

End Budget.

(** C3. Take rows as the activity query delivers them, none of which the
    first-poll rule skips, and let the cumulative estimated sizes first
    exceed the budget [B] at row [k]: the total of rows [1..k-1] is within
    [B] and the total of rows [1..k] is not. Then the normalizer returns,
    and what it returns is rows [1..k-1] in order, each as the loop
    prepares it, and nothing else. *)
Theorem C3_budget_prefix `{Collaborators}
    (B : Z) (rows : list row) (w : value) (k : nat) :
  time_or_None w = true ->
  forallb fetched_row (firstn k rows) = true ->
  none_suppressed w (firstn k rows) = true ->
  cumulative_size (firstn (k - 1) rows) <= B < cumulative_size (firstn k rows) ->
  exists out w',
    _normalize_queries_and_filter_rows w rows B = (Ok out, w')
    /\ Forall2 (fun r o => prepare r = Ok o) (firstn (k - 1) rows) out.
Proof.
  intros W F N Cm. destruct k as [|j].
  - cbn in Cm. lia.
  - replace (S j - 1)%nat with j in * by lia.
    destruct (normalize_loop_cut B rows j w 0 [] W F N) as (outs & w' & L & F2);
      [lia|].
    exists outs, w'. split; [exact L | exact F2].
Qed.

Example sized_rows_sizes : map row_size sized_rows = [40; 40; 40].
Proof. reflexivity. Qed.

Example sized_rows_budget_100 :
  _normalize_queries_and_filter_rows VNone sized_rows 100
  = (Ok [ [("status", VStr "idle"); ("text", VStr ""); ("id", VInt 11)];
          [("status", VStr "idle"); ("text", VStr ""); ("id", VInt 12)] ],
     VNone).
Proof. reflexivity. Qed.

Lemma C3_budget_prefix_witness :
  (time_or_None VNone = true
   /\ forallb fetched_row (firstn 3 sized_rows) = true
   /\ none_suppressed VNone (firstn 3 sized_rows) = true
   /\ cumulative_size (firstn (3 - 1) sized_rows) <= 100
        < cumulative_size (firstn 3 sized_rows))
  /\ exists out w',
       _normalize_queries_and_filter_rows VNone sized_rows 100 = (Ok out, w')
       /\ Forall2 (fun r o => prepare r = Ok o) (firstn (3 - 1) sized_rows) out.
Proof.
  assert (Cm : cumulative_size (firstn (3 - 1) sized_rows) <= 100
                 < cumulative_size (firstn 3 sized_rows)).
  { split; [vm_compute; discriminate | reflexivity]. }
  split.
  - repeat split; try reflexivity; apply Cm.
  - apply (C3_budget_prefix (H := sample) 100 sized_rows VNone 3
             eq_refl eq_refl eq_refl Cm).
Defined.

(** ** The high-water mark *)

Section Watermark.
Context {C : Collaborators}.

Lemma watermark_le_refl w : time_or_None w = true -> watermark_le w w.
Proof. destruct w; cbn; try discriminate; intros _; auto; lia. Qed.

Lemma watermark_le_trans a b c :
  watermark_le a b -> watermark_le b c -> watermark_le a c.
Proof. destruct a, b, c; cbn; try tauto; lia. Qed.

Lemma is_max_start_time_app_none seen extra w :
  is_max_start_time seen w ->
  (forall r, In r extra -> start_time_of r = None) ->
  is_max_start_time (seen ++ extra) w.
Proof.
  intros M E. destruct w; cbn in *; try tauto.
  - intros r I. apply in_app_or in I. destruct I; auto.
  - destruct M as ((r & I & S) & Bd). split.
    + exists r. split; [apply in_or_app; now left | exact S].
    + intros r' t' I' S'. apply in_app_or in I'. destruct I' as [I'|I'].
      * eauto.
      * rewrite (E _ I') in S'. discriminate.
Qed.

(** One call of [_set_last_activity] on a row with a datetime-or-NULL
    [start_time]: either the lookup raises and the row has no
    [start_time], or the attribute becomes the largest [start_time] seen
    with this row added, and does not go down. *)
Lemma set_last_activity_max seen w r r1 :
  dict_get "start_time" r1 = dict_get "start_time" r ->
  time_or_None w = true -> start_time_typed r = true ->
  is_max_start_time seen w ->
  match _set_last_activity w r1 with
  | Ok w' =>
      time_or_None w' = true /\ watermark_le w w'
      /\ is_max_start_time (seen ++ [r]) w'
  | Raise _ => start_time_of r = None
  end.
Proof.
  intros E W T M. unfold _set_last_activity, dict_lookup. rewrite E.
  unfold start_time_typed in T. unfold start_time_of.
  destruct (dict_get "start_time" r) as [[| | | |t]|] eqn:G;
    try discriminate; cbn.
  - split; [exact W|]. split; [now apply watermark_le_refl|].
    apply is_max_start_time_app_none; [exact M|].
    intros r' [<-|[]]. unfold start_time_of. now rewrite G.
  - assert (Sr : start_time_of r = Some t)
      by (unfold start_time_of; now rewrite G).
    destruct w as [| | | |m]; try discriminate; cbn.
    + repeat split; auto.
      * exists r. split; [apply in_or_app; right; now left | exact Sr].
      * intros r' t' I S'. apply in_app_or in I. destruct I as [I|[<-|[]]].
        -- cbn in M. rewrite (M _ I) in S'. discriminate.
        -- rewrite Sr in S'. injection S' as <-. lia.
    + cbn in M. destruct M as ((r0 & I0 & S0) & Bd).
      destruct (Z.gtb_spec t m); cbn; repeat split; auto; try lia.
      * exists r. split; [apply in_or_app; right; now left | exact Sr].
      * intros r' t' I S'. apply in_app_or in I. destruct I as [I|[<-|[]]].
        -- specialize (Bd _ _ I S'). lia.
        -- rewrite Sr in S'. injection S' as <-. lia.
      * exists r0. split; [apply in_or_app; now left | exact S0].
      * intros r' t' I S'. apply in_app_or in I. destruct I as [I|[<-|[]]].
        -- eauto.
        -- rewrite Sr in S'. injection S' as <-. lia.
  - reflexivity.
Qed.

(** The invariant of the loop. *)
Lemma normalize_loop_watermark B rows :
  forall seen w size acc,
    time_or_None w = true ->
    forallb start_time_typed rows = true ->
    is_max_start_time seen w ->
    let w' := snd (normalize_loop B rows w size acc) in
    time_or_None w' = true /\ watermark_le w w'
    /\ is_max_start_time (seen ++ considered B rows w size) w'.
Proof.
  induction rows as [|r rest IH]; intros seen w size acc W T M.
  - cbn. rewrite app_nil_r. auto using watermark_le_refl.
  - cbn [forallb] in T. apply andb_true_iff in T. destruct T as [Tr T].
    cbn zeta. rewrite normalize_loop_cons. cbn [considered].
    destruct (first_poll_sleeping w r) as [[|]|e].
    + apply IH; assumption.
    + pose proof (set_last_activity_max seen w r (fst (obfuscate_row r))
                    (obfuscate_row_get r "start_time" ltac:(discriminate))
                    W Tr M) as A.
      destruct (_set_last_activity w (fst (obfuscate_row r))) as [w1|e].
      * destruct A as (W1 & L1 & M1).
        destruct (prepare r) as [r2|e].
        -- destruct (size + _get_estimated_row_size_bytes r2 >? B).
           ++ cbn. auto.
           ++ destruct (IH (seen ++ [r])%list w1
                          (size + _get_estimated_row_size_bytes r2)
                          (acc ++ [r2])%list W1 T M1) as (W2 & L2 & M2).
              rewrite <- app_assoc in M2. cbn in M2.
              split; [exact W2|]. split; [|exact M2].
              eapply watermark_le_trans; eauto.
        -- cbn. auto.
      * cbn. split; [exact W|]. split; [now apply watermark_le_refl|].
        apply is_max_start_time_app_none; [exact M|].
        intros r' [<-|[]]. exact A.
    + cbn. rewrite app_nil_r. auto using watermark_le_refl.
Qed.

(** Where a poll leaves the attribute. *)
Lemma collect_activity_watermark env self :
  _activity_last_query_start (snd (collect_activity env self)) =
  match acquire env, _get_active_connections env, _get_activity env self with
  | Ok _, Ok _, Ok rows =>
      snd (_normalize_queries_and_filter_rows
             (_activity_last_query_start self) rows MAX_PAYLOAD_BYTES)
  | _, _, _ => _activity_last_query_start self
  end.
Proof.
  unfold collect_activity.
  destruct (acquire env); [|reflexivity].
  destruct (_get_active_connections env); [|reflexivity].
  destruct (_get_activity env self); [|reflexivity].
  destruct (_normalize_queries_and_filter_rows _ _ _) as [[out|e] w];
    [|reflexivity].
  cbn zeta. destruct (transmit env _); reflexivity.
Qed.

Lemma collect_activity_max env self seen :
  env_typed env ->
  time_or_None (_activity_last_query_start self) = true ->
  is_max_start_time seen (_activity_last_query_start self) ->
  let w' := _activity_last_query_start (snd (collect_activity env self)) in
  time_or_None w' = true
  /\ watermark_le (_activity_last_query_start self) w'
  /\ is_max_start_time (seen ++ poll_considered env self) w'.
Proof.
  intros Te W M. cbn zeta. rewrite collect_activity_watermark.
  unfold poll_considered.
  destruct (acquire env);
    [|rewrite app_nil_r; auto using watermark_le_refl].
  destruct (_get_active_connections env);
    [|rewrite app_nil_r; auto using watermark_le_refl].
  destruct (_get_activity env self) as [rows|e] eqn:Ac;
    [|rewrite app_nil_r; auto using watermark_le_refl].
  apply normalize_loop_watermark; auto.
  unfold _get_activity in Ac. eapply Te; eauto.
Qed.

Lemma run_polls_max envs :
  forall self seen,
    Forall env_typed envs ->
    time_or_None (_activity_last_query_start self) = true ->
    is_max_start_time seen (_activity_last_query_start self) ->
    let w' := _activity_last_query_start (run_polls envs self) in
    time_or_None w' = true
    /\ watermark_le (_activity_last_query_start self) w'
    /\ is_max_start_time (seen ++ considered_so_far envs self) w'.
Proof.
  induction envs as [|env rest IH]; intros self seen Te W M.
  - cbn. rewrite app_nil_r. auto using watermark_le_refl.
  - inversion Te as [|? ? Te1 Te2]; subst.
    destruct (collect_activity_max env self seen Te1 W M) as (W1 & L1 & M1).
    destruct (IH (snd (collect_activity env self)) _ Te2 W1 M1)
      as (W2 & L2 & M2).
    cbn [run_polls considered_so_far]. cbn zeta.
    rewrite app_assoc. split; [exact W2|]. split; [|exact M2].
    eapply watermark_le_trans; eauto.
Qed.

End Watermark.

(** C4. Run any sequence of polls from a fresh job, against databases
    whose [start_time] column holds datetimes or NULL. After the sequence
    the attribute is the largest [start_time] among the rows the
    normalizer has passed to [_set_last_activity] in all polls so far,
    rows later cut by the budget included (unset when no such row had a
    [start_time]); and one more poll leaves the attribute at least where it
    was: once set it stays set and does not go down. *)
Theorem C4_watermark_monotone_max `{Collaborators}
    (configured : option Z) (envs : list poll_env) (env : poll_env) :
  Forall env_typed envs -> env_typed env ->
  let self := run_polls envs (init configured) in
  is_max_start_time (considered_so_far envs (init configured))
    (_activity_last_query_start self)
  /\ watermark_le (_activity_last_query_start self)
       (_activity_last_query_start (snd (collect_activity env self))).
Proof.
  intros Te Te1. cbn zeta.
  destruct (run_polls_max envs (init configured) [] Te eq_refl)
    as (W & _ & M); [cbn; tauto|].
  split; [exact M|].
  destruct (collect_activity_max env (run_polls envs (init configured))
              (considered_so_far envs (init configured)) Te1 W M)
    as (_ & L & _).
  exact L.
Qed.

Lemma sample_env_typed rows :
  forallb start_time_typed rows = true -> env_typed (sample_env rows).
Proof.
  intros T query rs. cbn.
  destruct (String.eqb query CONNECTIONS_QUERY); intros [= <-];
    [reflexivity | exact T].
Qed.

Lemma broken_env_typed : env_typed broken_env.
Proof.
  intros query rs. cbn.
  destruct (String.eqb query CONNECTIONS_QUERY); [|discriminate].
  intros [= <-]. reflexivity.
Qed.

Example considered_sample :
  considered 100
    [sleeping_row (VTime 50) "SELECT 0"; running_row (VTime 100) "SELECT 1";
     running_row (VTime 200) "SELECT 2"; running_row (VTime 300) "SELECT 3"]
    VNone 0
  = [running_row (VTime 100) "SELECT 1"; running_row (VTime 200) "SELECT 2"].
Proof. reflexivity. Qed.

(** The row that exhausts the budget has already advanced the attribute. *)
Example cut_row_advances_attribute :
  _normalize_queries_and_filter_rows VNone
    [running_row (VTime 100) "SELECT 1"; running_row (VTime 200) "SELECT 2"]
    100
  = (Ok [ [("status", VStr "running"); ("text", VStr "SELECT ?");
           ("start_time", VTime 100); ("query_signature", VStr "5345")] ],
     VTime 200).
Proof. reflexivity. Qed.

Lemma C4_watermark_monotone_max_witness :
  (Forall env_typed sample_polls
   /\ env_typed (sample_env [running_row (VTime 120) "SELECT 4"]))
  /\ _activity_last_query_start (run_polls sample_polls (init None)) = VTime 150
  /\ is_max_start_time (considered_so_far sample_polls (init None)) (VTime 150)
  /\ watermark_le (VTime 150)
       (_activity_last_query_start
          (snd (collect_activity
                  (sample_env [running_row (VTime 120) "SELECT 4"])
                  (run_polls sample_polls (init None))))).
Proof.
  assert (Te : Forall env_typed sample_polls).
  { repeat constructor;
      first [apply broken_env_typed | now apply sample_env_typed]. }
  assert (Te1 : env_typed (sample_env [running_row (VTime 120) "SELECT 4"]))
    by now apply sample_env_typed.
  split; [split; assumption|].
  split; [reflexivity|].
  exact (C4_watermark_monotone_max (H := sample) None sample_polls
           (sample_env [running_row (VTime 120) "SELECT 4"]) Te Te1).
Defined.

(** ** Further properties: hexadecimal encoding *)

Lemma hex_value_digit n : (n < 16)%N -> hex_value (hex_digit n) = n.
Proof.
  intros L. destruct n as [|p]; [reflexivity|].
  do 4 (destruct p as [p|p|]; try reflexivity); exfalso; lia.
Qed.

Lemma hexlify_length b :
  String.length (hexlify b) = (2 * String.length b)%nat.
Proof. induction b as [|c b IH]; simpl; [reflexivity | rewrite IH; lia]. Qed.

Lemma hexlify_injective a b : hexlify a = hexlify b -> a = b.
Proof.
  revert b. induction a as [|c a IH]; intros [|d b]; simpl; try discriminate.
  - reflexivity.
  - intros [= Hhi Hlo E]. f_equal; [|now apply IH].
    pose proof (N_ascii_bounded c) as Bc. pose proof (N_ascii_bounded d) as Bd.
    assert (Qc : (N_of_ascii c / 16 < 16)%N)
      by (apply N.Div0.div_lt_upper_bound; lia).
    assert (Qd : (N_of_ascii d / 16 < 16)%N)
      by (apply N.Div0.div_lt_upper_bound; lia).
    assert (Rc : (N_of_ascii c mod 16 < 16)%N) by (apply N.mod_lt; lia).
    assert (Rd : (N_of_ascii d mod 16 < 16)%N) by (apply N.mod_lt; lia).
    apply (f_equal hex_value) in Hhi, Hlo.
    rewrite !hex_value_digit in Hhi, Hlo by assumption.
    rewrite <- (ascii_N_embedding c), <- (ascii_N_embedding d). f_equal.
    rewrite (N.div_mod (N_of_ascii c) 16), (N.div_mod (N_of_ascii d) 16)
      by lia.
    now rewrite Hhi, Hlo.
Qed.

(** X1. [_hash_to_hex] loses nothing: two hashes with the same hexadecimal
    text are the same hash. *)
Theorem X1_hash_to_hex_injective (h1 h2 v : value) :
  _hash_to_hex h1 = Ok v -> _hash_to_hex h2 = Ok v -> h1 = h2.
Proof.
  destruct h1, h2; cbn; try discriminate.
  intros [= <-] [= E]. f_equal. symmetry. now apply hexlify_injective.
Qed.

Lemma X1_hash_to_hex_injective_witness :
  _hash_to_hex (VBytes "Az") = Ok (VStr "417a") /\ VBytes "Az" = VBytes "Az".
Proof.
  split; [reflexivity|].
  apply (X1_hash_to_hex_injective (VBytes "Az") (VBytes "Az") (VStr "417a"));
    reflexivity.
Defined.

(** X2. On a binary value of [n] bytes [_hash_to_hex] returns a string of
    [2 n] characters, all of them lowercase hexadecimal digits; on a value
    that is not binary it raises a type error and returns nothing. *)
Theorem X2_hash_to_hex_shape (h : value) :
  match h with
  | VBytes b =>
      exists s, _hash_to_hex h = Ok (VStr s)
                /\ String.length s = (2 * String.length b)%nat
                /\ is_hex_string (VStr s) = true
  | _ => _hash_to_hex h = Raise TypeError
  end.
Proof.
  destruct h; try reflexivity.
  exists (hexlify b). repeat split; [apply hexlify_length | apply hexlify_is_hex].
Qed.

(** ** Further properties: construction of the job and of its query *)



(** X4. In every state of the job the activity query it executes is the
    fixed SELECT, then either nothing or one WHERE clause, then the
    ascending ORDER BY on the transaction begin time: the ordering the
    budget relies on is never left out. The WHERE clause is absent exactly
    when the attribute is falsy, which it is on a new job. *)
Theorem X4_activity_query_always_ordered `{Collaborators}
    (env : poll_env) (self : job) :
  exists where_clause,
    _get_activity env self
    = execute env
        (ACTIVITY_QUERY_prefix ++ where_clause
           ++ " ORDER BY at.transaction_begin_time ASC")
    /\ (truthy (_activity_last_query_start self) = false -> where_clause = "")
    /\ (truthy (_activity_last_query_start self) = true ->
        where_clause
        = " WHERE "
            ++ render (activity_filter (_activity_last_query_start self)
                         (collection_interval self))).
Proof.
  unfold _get_activity, ACTIVITY_QUERY_format.
  destruct (truthy (_activity_last_query_start self)) eqn:T.
  - exists (" WHERE "
              ++ render (activity_filter (_activity_last_query_start self)
                           (collection_interval self))).
    rewrite (extra_activity_query_args_render self T).
    split; [now rewrite !append_assoc|].
    split; [discriminate | reflexivity].
  - exists "". unfold _get_extra_activity_query_args. rewrite T.
    split; [reflexivity|]. split; [reflexivity | discriminate].
Qed.

(** ** Further properties: the row dicts of the fetchers *)

Lemma dict_get_set k k' v d :
  dict_get k (dict_set k' v d)
  = if String.eqb k k' then Some v else dict_get k d.
Proof.
  destruct (String.eqb k k') eqn:E.
  - apply String.eqb_eq in E. subst. apply dict_get_set_same.
  - apply String.eqb_neq in E. now apply dict_get_set_other.
Qed.

Lemma dict_get_app k (d d' : row) :
  dict_get k (d ++ d')%list
  = match dict_get k d with Some v => Some v | None => dict_get k d' end.
Proof.
  induction d as [|[k' v'] d IH]; simpl; [reflexivity|].
  destruct (String.eqb k k'); auto.
Qed.

Lemma py_dict_fold_get k pairs :
  forall d,
    dict_get k (fold_left (fun d kv => dict_set (fst kv) (snd kv) d) pairs d)
    = match dict_get k (rev pairs) with
      | Some v => Some v
      | None => dict_get k d
      end.
Proof.
  induction pairs as [|[k' v'] pairs IH]; intros d; simpl; [reflexivity|].
  rewrite IH, dict_get_app, dict_get_set. simpl.
  destruct (dict_get k (rev pairs)); [reflexivity|].
  destruct (String.eqb k k'); reflexivity.
Qed.

Lemma py_dict_fold_NoDup pairs :
  forall d, NoDup (keys d) ->
    NoDup (keys (fold_left (fun d kv => dict_set (fst kv) (snd kv) d) pairs d)).
Proof.
  induction pairs as [|[k v] pairs IH]; intros d N; simpl; [exact N|].
  apply IH. now apply dict_set_NoDup.
Qed.

Lemma py_dict_fold_keys k pairs :
  forall d,
    In k (keys (fold_left (fun d kv => dict_set (fst kv) (snd kv) d) pairs d)) ->
    In k (map fst pairs) \/ In k (keys d).
Proof.
  induction pairs as [|[k' v'] pairs IH]; intros d; simpl; [auto|].
  intros I. destruct (IH _ I) as [J|J]; [auto|].
  apply keys_dict_set in J. destruct J; auto.
Qed.

(** X5. Every row a fetcher builds is a proper dict: its keys are pairwise
    distinct and are column names of the cursor, and there is one row per
    fetched tuple, in the order of the tuples; a failure of [execute]
    passes through unchanged. *)
Theorem X5_fetched_rows_are_dicts
    (run : string -> result cursor_state) (query : string) :
  match run query with
  | Raise e => fetch_rows run query = Raise e
  | Ok c =>
      exists rows,
        fetch_rows run query = Ok rows
        /\ List.length rows = List.length (fetchall c)
        /\ Forall (fun r => NoDup (keys r)
                            /\ incl (keys r) (map fst (description c))) rows
  end.
Proof.
  unfold fetch_rows. destruct (run query) as [c|e]; cbn; [|reflexivity].
  exists (row_dicts c). split; [reflexivity|]. unfold row_dicts. cbn zeta.
  split; [apply length_map|].
  apply Forall_forall. intros r I. apply in_map_iff in I.
  destruct I as (t & <- & _). split.
  - apply py_dict_fold_NoDup. constructor.
  - intros k K. apply py_dict_fold_keys in K. destruct K as [K|[]].
    apply in_map_iff in K. destruct K as ([k' v'] & <- & K).
    apply in_combine_l in K. exact K.
Qed.

(** X6. When a column name occurs more than once in the cursor, the row
    dict holds the value of its last occurrence: looking a name up in the
    dict is looking it up in the name-value pairs read from the last to
    the first. In the activity query, whose [r.*] repeats names selected
    before it, the later column is the one the job sees. *)
Theorem X6_duplicate_column_last_wins (columns : list string)
    (tuple : list value) (k : string) :
  dict_get k (py_dict (combine columns tuple))
  = dict_get k (rev (combine columns tuple)).
Proof.
  unfold py_dict. rewrite py_dict_fold_get.
  destruct (dict_get k (rev (combine columns tuple))); reflexivity.
Qed.

Example sample_cursor_rows :
  row_dicts sample_cursor
  = [ [("status", VStr "running"); ("text", VStr "SELECT 1");
       ("session_id", VInt 51); ("start_time", VTime 100)];
      [("status", VNone); ("text", VStr "SELECT 2");
       ("session_id", VInt 52); ("start_time", VNone)] ].
Proof. reflexivity. Qed.

(** ** Further properties: the normalizer *)

Section Normalizer.
Context {C : Collaborators}.

Lemma total_size_app rows rows' :
  total_size (rows ++ rows') = total_size rows + total_size rows'.
Proof.
  induction rows as [|r rows IH]; [reflexivity|].
  change (_get_estimated_row_size_bytes r + total_size (rows ++ rows')
          = _get_estimated_row_size_bytes r + total_size rows
            + total_size rows').
  rewrite IH. lia.
Qed.

Lemma normalize_loop_within_budget B rows :
  forall w size acc out w',
    size = total_size acc -> (acc = [] \/ size <= B) ->
    normalize_loop B rows w size acc = (Ok out, w') ->
    out = [] \/ total_size out <= B.
Proof.
  induction rows as [|r rest IH]; intros w size acc out w' Sz Bd.
  - cbn. intros [= <- <-]. destruct Bd; [auto | right; lia].
  - rewrite normalize_loop_cons.
    destruct (first_poll_sleeping w r) as [[|]|e]; [eauto| |discriminate].
    destruct (_set_last_activity w (fst (obfuscate_row r))) as [w1|e];
      [|discriminate].
    destruct (prepare r) as [r2|e]; [|discriminate].
    destruct (Z.gtb_spec (size + _get_estimated_row_size_bytes r2) B).
    + intros [= <- <-]. destruct Bd; [auto | right; lia].
    + apply IH; [|right; lia].
      rewrite total_size_app. cbn. lia.
Qed.

Lemma normalize_loop_all_fit B rows :
  forall w size acc,
    time_or_None w = true ->
    forallb fetched_row rows = true ->
    none_suppressed w rows = true ->
    size + cumulative_size rows <= B ->
    exists outs w',
      normalize_loop B rows w size acc = (Ok (acc ++ outs)%list, w')
      /\ Forall2 (fun r o => prepare r = Ok o) rows outs.
Proof.
  induction rows as [|r rest IH]; intros w size acc W F N Le.
  - exists [], w. cbn. rewrite app_nil_r. split; constructor.
  - cbn [forallb] in F. apply andb_true_iff in F. destruct F as [Fr F].
    destruct (fetched_row_parts r Fr) as (_ & Tm & Hh).
    cbn [none_suppressed] in N.
    destruct (first_poll_sleeping w r) as [[|]|e] eqn:S; try discriminate.
    destruct (set_last_activity_total w _ W Tm) as (w1 & A & W1).
    rewrite A in N. destruct (prepare_total r Hh) as (o & P).
    rewrite normalize_loop_cons, S, A, P. cbn [cumulative_size] in Le.
    assert (Sz : row_size r = _get_estimated_row_size_bytes o)
      by (unfold row_size; now rewrite P).
    pose proof (cumulative_size_nonneg rest) as Nn.
    destruct (Z.gtb_spec (size + _get_estimated_row_size_bytes o) B); [lia|].
    destruct (IH w1 (size + _get_estimated_row_size_bytes o)
                (acc ++ [o])%list W1 F N) as (outs & w' & L & F2); [lia|].
    exists (o :: outs), w'. split.
    + rewrite L, <- app_assoc. reflexivity.
    + now constructor.
Qed.

Lemma normalize_loop_total B rows :
  forall w size acc,
    time_or_None w = true ->
    forallb fetched_row rows = true ->
    exists out w',
      normalize_loop B rows w size acc = (Ok out, w')
      /\ time_or_None w' = true.
Proof.
  induction rows as [|r rest IH]; intros w size acc W F.
  - exists acc, w. cbn. auto.
  - cbn [forallb] in F. apply andb_true_iff in F. destruct F as [Fr F].
    destruct (fetched_row_parts r Fr) as ((s & St) & Tm & Hh).
    rewrite normalize_loop_cons.
    assert (S : exists b, first_poll_sleeping w r = Ok b).
    { unfold first_poll_sleeping, dict_lookup. rewrite St.
      destruct (is_None w); cbn; eauto. }
    destruct S as ([|] & ->); [now apply IH|].
    destruct (set_last_activity_total w _ W Tm) as (w1 & -> & W1).
    destruct (prepare_total r Hh) as (o & ->).
    destruct (size + _get_estimated_row_size_bytes o >? B); [eauto|].
    now apply IH.
Qed.

Lemma set_last_activity_stays_set w r w' :
  _set_last_activity w r = Ok w' -> is_None w = false -> is_None w' = false.
Proof.
  unfold _set_last_activity, dict_lookup.
  destruct (dict_get "start_time" r) as [st|]; cbn; [|discriminate].
  destruct (is_None st) eqn:Ns; [now intros [= <-]|].
  intros E Nw. rewrite Nw in E.
  destruct (py_gt st w) as [[|]|e]; cbn in E; try discriminate;
    injection E as <-; assumption.
Qed.

Lemma normalize_loop_stays_set B rows :
  forall w size acc,
    is_None w = false ->
    is_None (snd (normalize_loop B rows w size acc)) = false.
Proof.
  induction rows as [|r rest IH]; intros w size acc Nw; [exact Nw|].
  rewrite normalize_loop_cons.
  destruct (first_poll_sleeping w r) as [[|]|e]; [now apply IH| |exact Nw].
  destruct (_set_last_activity w (fst (obfuscate_row r))) as [w1|e] eqn:A;
    [|exact Nw].
  pose proof (set_last_activity_stays_set _ _ _ A Nw) as N1.
  destruct (prepare r) as [r2|e]; [|exact N1].
  destruct (_ >? B); [exact N1 | now apply IH].
Qed.

Lemma normalize_loop_no_start_time B rows :
  forall size acc out w',
    Forall (fun r => dict_get "start_time" r = Some VNone) rows ->
    normalize_loop B rows VNone size acc = (Ok out, w') ->
    w' = VNone
    /\ exists kept outs,
         out = (acc ++ outs)%list /\ subseq kept rows
         /\ Forall2 (fun r o => prepare r = Ok o) kept outs
         /\ Forall (fun r => exists s, dict_get "status" r = Some s
                                       /\ s <> VStr "sleeping") kept.
Proof.
  induction rows as [|r rest IH]; intros size acc out w' St.
  - cbn. intros [= <- <-]. split; [reflexivity|]. exists [], [].
    rewrite app_nil_r. repeat split; constructor.
  - inversion St as [|? ? Sr St']; subst. rewrite normalize_loop_cons.
    destruct (first_poll_sleeping VNone r) as [[|]|e] eqn:S; [| |discriminate].
    + intros L. destruct (IH _ _ _ _ St' L) as (-> & kept & outs & E & Sb & F & K).
      split; [reflexivity|]. exists kept, outs. repeat split; auto.
      now constructor.
    + assert (A : _set_last_activity VNone (fst (obfuscate_row r)) = Ok VNone).
      { unfold _set_last_activity, dict_lookup.
        rewrite obfuscate_row_get by discriminate. now rewrite Sr. }
      rewrite A. destruct (prepare r) as [r2|e] eqn:P; [|discriminate].
      destruct (_ >? B).
      * intros [= <- <-]. split; [reflexivity|]. exists [], [].
        rewrite app_nil_r. repeat split; try constructor. apply subseq_none.
      * intros L.
        destruct (IH _ _ _ _ St' L) as (-> & kept & outs & E & Sb & F & K).
        split; [reflexivity|]. exists (r :: kept), (r2 :: outs).
        repeat split.
        -- rewrite E, <- app_assoc. reflexivity.
        -- now constructor.
        -- now constructor.
        -- constructor; [|exact K].
           unfold first_poll_sleeping, dict_lookup in S. cbn in S.
           destruct (dict_get "status" r) as [s|]; cbn in S; [|discriminate].
           exists s. split; [reflexivity|]. intros ->. discriminate.
Qed.

Lemma dict_get_filter_kept (f : string * value -> bool) k v d :
  dict_get k d = Some v -> f (k, v) = true ->
  dict_get k (filter f d) = Some v.
Proof.
  induction d as [|[k' v'] d IH]; simpl; [discriminate|].
  destruct (String.eqb k k') eqn:E.
  - apply String.eqb_eq in E. subst k'. intros [= ->] Fv.
    rewrite Fv. simpl. now rewrite String.eqb_refl.
  - intros G Fv. destruct (f (k', v')); simpl; rewrite ?E; auto.
Qed.

Lemma dict_get_filter_dropped (f : string * value -> bool) k v d :
  NoDup (keys d) -> dict_get k d = Some v -> f (k, v) = false ->
  dict_get k (filter f d) = None.
Proof.
  unfold keys. induction d as [|[k' v'] d IH]; simpl; [discriminate|].
  intros N. inversion N as [|? ? Nin Nd]; subst.
  destruct (String.eqb k k') eqn:E.
  - apply String.eqb_eq in E. subst k'. intros [= ->] Fv. rewrite Fv.
    apply dict_get_filter_absent.
    destruct (dict_get k d) as [v0|] eqn:G; [|reflexivity].
    exfalso. apply Nin. apply dict_get_In in G.
    apply in_map_iff. exists (k, v0). auto.
  - intros G Fv. destruct (f (k', v')); simpl; rewrite ?E; auto.
Qed.

Lemma obfuscate_row_NoDup r : NoDup (keys r) -> NoDup (keys (fst (obfuscate_row r))).
Proof.
  intros N. unfold obfuscate_row, dict_lookup.
  destruct (dict_get "text" r) as [t|]; cbn; [|exact N].
  destruct (obfuscate_sql t) as [s|e]; cbn; [|exact N].
  destruct (compute_sql_signature s); cbn; [|exact N].
  now apply dict_set_NoDup.
Qed.

End Normalizer.

(** X7. The rows the normalizer returns respect the budget: unless it
    returns none, the total of their estimated sizes is at most the limit
    it was given. *)
Theorem X7_output_within_budget `{Collaborators}
    (w : value) (rows : list row) (B : Z) (out : list row) (w' : value) :
  _normalize_queries_and_filter_rows w rows B = (Ok out, w') ->
  out = [] \/ total_size out <= B.
Proof.
  apply normalize_loop_within_budget; [reflexivity | now left].
Qed.

Lemma X7_output_within_budget_witness :
  _normalize_queries_and_filter_rows VNone sized_rows 100
  = (Ok [ [("status", VStr "idle"); ("text", VStr ""); ("id", VInt 11)];
          [("status", VStr "idle"); ("text", VStr ""); ("id", VInt 12)] ],
     VNone)
  /\ total_size
       [ [("status", VStr "idle"); ("text", VStr ""); ("id", VInt 11)];
         [("status", VStr "idle"); ("text", VStr ""); ("id", VInt 12)] ]
     <= 100.
Proof.
  split; [reflexivity|].
  destruct (X7_output_within_budget (H := sample) VNone sized_rows 100 _ VNone
              eq_refl) as [E|L]; [discriminate E | exact L].
Defined.

(** X8. When the whole fetch fits the budget nothing is cut: for rows as
    the activity query delivers them, none skipped by the first-poll rule,
    whose cumulative estimated size is within the limit, the normalizer
    returns every row, prepared, in the order of the fetch. *)
Theorem X8_all_rows_returned_when_they_fit `{Collaborators}
    (B : Z) (rows : list row) (w : value) :
  time_or_None w = true ->
  forallb fetched_row rows = true ->
  none_suppressed w rows = true ->
  cumulative_size rows <= B ->
  exists out w',
    _normalize_queries_and_filter_rows w rows B = (Ok out, w')
    /\ Forall2 (fun r o => prepare r = Ok o) rows out.
Proof.
  intros W F N Le.
  destruct (normalize_loop_all_fit B rows w 0 [] W F N) as (outs & w' & L & F2);
    [lia|].
  exists outs, w'. auto.
Qed.

Lemma X8_all_rows_returned_when_they_fit_witness :
  (time_or_None VNone = true
   /\ forallb fetched_row sized_rows = true
   /\ none_suppressed VNone sized_rows = true
   /\ cumulative_size sized_rows <= 120)
  /\ exists out w',
       _normalize_queries_and_filter_rows VNone sized_rows 120 = (Ok out, w')
       /\ Forall2 (fun r o => prepare r = Ok o) sized_rows out.
Proof.
  assert (Le : cumulative_size sized_rows <= 120)
    by (vm_compute; discriminate).
  split; [repeat split; try reflexivity; exact Le|].
  apply (X8_all_rows_returned_when_they_fit (H := sample) 120 sized_rows VNone
           eq_refl eq_refl eq_refl Le).
Defined.

(** X9. On rows as the activity query delivers them ([status] and
    [start_time] present, [start_time] a datetime or NULL, hashes binary or
    NULL) and an attribute that is unset or a datetime, the normalizer
    raises nothing, whatever the obfuscator and the signature function do
    and whatever the limit; and it leaves the attribute unset or a
    datetime. *)
Theorem X9_normalizer_returns_on_fetched_rows `{Collaborators}
    (w : value) (rows : list row) (B : Z) :
  time_or_None w = true ->
  forallb fetched_row rows = true ->
  exists out w',
    _normalize_queries_and_filter_rows w rows B = (Ok out, w')
    /\ time_or_None w' = true.
Proof. intros W F. now apply normalize_loop_total. Qed.

Lemma X9_normalizer_returns_on_fetched_rows_witness :
  (time_or_None VNone = true
   /\ forallb fetched_row [rejected_row; handles_row] = true)
  /\ exists out w',
       _normalize_queries_and_filter_rows VNone [rejected_row; handles_row] 50
       = (Ok out, w')
       /\ time_or_None w' = true.
Proof.
  split; [split; reflexivity|].
  apply (X9_normalizer_returns_on_fetched_rows (H := sample) VNone
           [rejected_row; handles_row] 50 eq_refl eq_refl).
Defined.

(** X10. Once the attribute is set the normalizer never unsets it, whether
    it returns or raises and whatever the rows hold. *)
Theorem X10_normalizer_never_unsets `{Collaborators}
    (w : value) (rows : list row) (B : Z) :
  is_None w = false ->
  is_None (snd (_normalize_queries_and_filter_rows w rows B)) = false.
Proof. apply normalize_loop_stays_set. Qed.

Lemma X10_normalizer_never_unsets_witness :
  is_None (VTime 100) = false
  /\ is_None
       (snd (_normalize_queries_and_filter_rows (VTime 100)
               [sleeping_row VNone "SELECT 1"; startless_row]
               MAX_PAYLOAD_BYTES)) = false.
Proof.
  split; [reflexivity|].
  apply (X10_normalizer_never_unsets (H := sample) (VTime 100)
           [sleeping_row VNone "SELECT 1"; startless_row] MAX_PAYLOAD_BYTES
           eq_refl).
Defined.

(** X11. On a first poll (attribute unset) over rows none of which has a
    request ([start_time] is NULL in all), the first-poll rule does what
    its comment says: no returned row comes from a sleeping row, and the
    attribute is still unset afterwards, so the next poll is a first poll
    again. *)
Theorem X11_first_poll_without_requests `{Collaborators}
    (rows : list row) (B : Z) (out : list row) (w' : value) :
  Forall (fun r => dict_get "start_time" r = Some VNone) rows ->
  _normalize_queries_and_filter_rows VNone rows B = (Ok out, w') ->
  w' = VNone
  /\ exists kept,
       subseq kept rows
       /\ Forall2 (fun r o => prepare r = Ok o) kept out
       /\ Forall (fun r => exists s, dict_get "status" r = Some s
                                     /\ s <> VStr "sleeping") kept.
Proof.
  intros St N. apply normalize_loop_no_start_time in N; [|exact St].
  destruct N as (-> & kept & outs & -> & Sb & F & K).
  split; [reflexivity|]. exists kept. auto.
Qed.

Lemma X11_first_poll_without_requests_witness :
  Forall (fun r => dict_get "start_time" r = Some VNone)
    [sleeping_row VNone "SELECT 1"; idle_row 11; sleeping_row VNone "SELECT 2"]
  /\ exists kept,
       subseq kept
         [sleeping_row VNone "SELECT 1"; idle_row 11;
          sleeping_row VNone "SELECT 2"]
       /\ Forall2 (fun r o => prepare r = Ok o) kept
            [ [("status", VStr "idle"); ("text", VStr ""); ("id", VInt 11)] ]
       /\ Forall (fun r => exists s, dict_get "status" r = Some s
                                     /\ s <> VStr "sleeping") kept.
Proof.
  assert (St : Forall (fun r => dict_get "start_time" r = Some VNone)
                 [sleeping_row VNone "SELECT 1"; idle_row 11;
                  sleeping_row VNone "SELECT 2"])
    by (repeat constructor).
  split; [exact St|].
  apply (X11_first_poll_without_requests (H := sample) _ MAX_PAYLOAD_BYTES
           _ VNone St eq_refl).
Defined.

(** ** Further properties: what a prepared row holds *)

(** X12. Apart from the keys the loop body writes ([text],
    [query_signature], [query_hash], [query_plan_hash]) and the excluded
    keys, a prepared row holds exactly the non-null fields of the fetched
    row, with their values untouched: nothing is altered, nothing is
    invented, and a NULL column is dropped. *)
Theorem X12_other_fields_pass_through `{Collaborators}
    (r o : row) (k : string) :
  NoDup (keys r) ->
  prepare r = Ok o ->
  excluded_key k = false ->
  k <> "text" -> k <> "query_signature" ->
  k <> "query_hash" -> k <> "query_plan_hash" ->
  dict_get k o
  = match dict_get k r with
    | Some VNone => None
    | other => other
    end.
Proof.
  intros N P X Nt Ns Nq Np. unfold prepare in P.
  pose proof (obfuscate_row_NoDup r N) as N1.
  pose proof (obfuscate_row_get r k Ns) as G1.
  destruct (obfuscate_row r) as [r1 s]. cbn in N1, G1.
  rewrite (sanitize_row_other_key _ _ _ k P Nt Nq Np). rewrite <- G1.
  destruct (dict_get k r1) as [v|] eqn:G.
  - destruct (is_None v) eqn:Nv.
    + destruct v; try discriminate.
      apply (dict_get_filter_dropped _ k VNone); auto.
      unfold kept_by_comprehension. cbn. apply andb_false_r.
    + transitivity (Some v); [|now destruct v].
      apply dict_get_filter_kept; [exact G|].
      unfold kept_by_comprehension. cbn [fst snd]. now rewrite X, Nv.
  - now apply dict_get_filter_absent.
Qed.

Lemma X12_other_fields_pass_through_witness :
  NoDup (keys handles_row)
  /\ prepare handles_row
     = Ok [("status", VStr "running"); ("text", VStr "SELECT ?");
           ("start_time", VTime 100); ("query_hash", VStr "417a");
           ("query_signature", VStr "5345")]
  /\ dict_get "start_time"
       [("status", VStr "running"); ("text", VStr "SELECT ?");
        ("start_time", VTime 100); ("query_hash", VStr "417a");
        ("query_signature", VStr "5345")]
     = Some (VTime 100)
  /\ dict_get "wait_type"
       [("status", VStr "running"); ("text", VStr "SELECT ?");
        ("start_time", VTime 100); ("query_hash", VStr "417a");
        ("query_signature", VStr "5345")]
     = None.
Proof.
  assert (N : NoDup (keys handles_row)).
  { repeat (constructor; [cbn; intuition discriminate|]). constructor. }
  split; [exact N|]. split; [reflexivity|]. split.
  - apply (X12_other_fields_pass_through (H := sample) handles_row _
             "start_time" N eq_refl eq_refl);
      discriminate.
  - apply (X12_other_fields_pass_through (H := sample) handles_row _
             "wait_type" N eq_refl eq_refl);
      discriminate.
Defined.

(** X13. When the obfuscator and the signature function both return, and
    the signature is not [None], the prepared row carries that signature
    under [query_signature] and the obfuscated statement under [text],
    overwriting whatever the fetched row held there. *)
Theorem X13_signature_of_obfuscated_text `{Collaborators}
    (r o : row) (t : value) (s : string) (signature : value) :
  dict_get "text" r = Some t ->
  obfuscate_sql t = Ok s ->
  compute_sql_signature s = Ok signature ->
  signature <> VNone ->
  prepare r = Ok o ->
  dict_get "query_signature" o = Some signature
  /\ dict_get "text" o = Some (VStr s).
Proof.
  intros T O G Nn P. unfold prepare, obfuscate_row, dict_lookup in P.
  rewrite T in P. cbn in P. rewrite O in P. cbn in P. rewrite G in P.
  cbn in P. split; [|eapply sanitize_row_text; eauto].
  rewrite (sanitize_row_other_key _ _ _ "query_signature" P)
    by discriminate.
  apply dict_get_filter_kept; [apply dict_get_set_same|].
  unfold kept_by_comprehension. cbn. now destruct signature.
Qed.

Lemma X13_signature_of_obfuscated_text_witness :
  (dict_get "text" handles_row = Some (VStr "SELECT 1")
   /\ obfuscate_sql (VStr "SELECT 1") = Ok "SELECT ?"
   /\ compute_sql_signature "SELECT ?" = Ok (VStr "5345"))
  /\ dict_get "query_signature"
       [("status", VStr "running"); ("text", VStr "SELECT ?");
        ("start_time", VTime 100); ("query_hash", VStr "417a");
        ("query_signature", VStr "5345")]
     = Some (VStr "5345")
  /\ dict_get "text"
       [("status", VStr "running"); ("text", VStr "SELECT ?");
        ("start_time", VTime 100); ("query_hash", VStr "417a");
        ("query_signature", VStr "5345")]
     = Some (VStr "SELECT ?").
Proof.
  split; [repeat split|].
  apply (X13_signature_of_obfuscated_text (H := sample) handles_row _
           (VStr "SELECT 1") "SELECT ?" (VStr "5345")
           eq_refl eq_refl eq_refl);
    [discriminate | reflexivity].
Defined.

(** ** Further properties: the size estimate *)

Section Estimate.
Context {C : Collaborators}.

Lemma length_append (a b : string) :
  String.length (a ++ b) = (String.length a + String.length b)%nat.
Proof. induction a as [|c a IH]; simpl; [reflexivity | now rewrite IH]. Qed.

Lemma length_concat sep (l : list string) :
  String.length (String.concat sep l)
  = (list_sum (map String.length l)
     + String.length sep * (List.length l - 1))%nat.
Proof.
  induction l as [|x l IH]; [simpl; lia|].
  destruct l as [|y l]; [simpl; lia|].
  change (String.concat sep (x :: y :: l))
    with (x ++ sep ++ String.concat sep (y :: l)).
  rewrite !length_append, IH. cbn [map list_sum List.length].
  replace (S (S (List.length l)) - 1)%nat with (S (List.length l)) by lia.
  replace (S (List.length l) - 1)%nat with (List.length l) by lia.
  rewrite Nat.mul_succ_r. cbn [list_sum fold_right]. lia.
Qed.

(** The estimate, entry by entry: the two braces, each entry with its
    colon and space, and a comma and a space between entries. *)
Lemma estimated_row_size_sum r :
  _get_estimated_row_size_bytes r
  = Z.of_nat (2 + list_sum (map entry_length r) + 2 * (List.length r - 1)).
Proof.
  unfold _get_estimated_row_size_bytes, py_str_dict. f_equal.
  rewrite !length_append, length_concat, length_map, map_map.
  cbn [String.length].
  assert (E : map (fun kv : string * value =>
                     String.length (py_repr (VStr (fst kv)) ++ ": "
                                    ++ py_repr (snd kv))) r
              = map entry_length r).
  { apply map_ext. intros kv. unfold entry_length.
    rewrite !length_append. change (String.length ": ") with 2%nat. lia. }
  rewrite E. lia.
Qed.

Lemma list_sum_Permutation (l l' : list nat) :
  Permutation l l' -> list_sum l = list_sum l'.
Proof. unfold list_sum. induction 1; simpl; lia. Qed.

Lemma dict_set_new k v d :
  dict_get k d = None -> dict_set k v d = (d ++ [(k, v)])%list.
Proof.
  induction d as [|[k' v'] d IH]; simpl; [reflexivity|].
  destruct (String.eqb k k'); [discriminate|]. intros G. now rewrite IH.
Qed.

End Estimate.

(** X14. The estimated size of a row does not depend on the order of its
    fields: two dicts with the same entries in different orders get the
    same estimate, so the budget decision is the same for them. *)
Theorem X14_estimate_ignores_field_order `{Collaborators} (r r' : row) :
  Permutation r r' ->
  _get_estimated_row_size_bytes r = _get_estimated_row_size_bytes r'.
Proof.
  intros P. rewrite !estimated_row_size_sum.
  rewrite (list_sum_Permutation _ _ (Permutation_map entry_length P)).
  now rewrite (Permutation_length P).
Qed.

Lemma X14_estimate_ignores_field_order_witness :
  Permutation
    [("status", VStr "idle"); ("text", VStr ""); ("id", VInt 11)]
    [("text", VStr ""); ("id", VInt 11); ("status", VStr "idle")]
  /\ _get_estimated_row_size_bytes
       [("status", VStr "idle"); ("text", VStr ""); ("id", VInt 11)]
     = _get_estimated_row_size_bytes
         [("text", VStr ""); ("id", VInt 11); ("status", VStr "idle")].
Proof.
  assert (P : Permutation
                [("status", VStr "idle"); ("text", VStr ""); ("id", VInt 11)]
                [("text", VStr ""); ("id", VInt 11); ("status", VStr "idle")]).
  { apply (Permutation_cons_app [_; _] []). apply Permutation_refl. }
  split; [exact P|].
  apply (X14_estimate_ignores_field_order (H := sample) _ _ P).
Defined.

(** X15. The estimate is at least 2, the two braces of an empty dict, and
    grows with the row: adding a field under a new key makes it strictly
    larger, by the field's rendering and its separator. *)
Theorem X15_estimate_grows_with_fields `{Collaborators}
    (r : row) (k : string) (v : value) :
  dict_get k r = None ->
  2 <= _get_estimated_row_size_bytes r
  /\ _get_estimated_row_size_bytes r
     < _get_estimated_row_size_bytes (dict_set k v r).
Proof.
  intros G. rewrite (dict_set_new k v r G), !estimated_row_size_sum.
  rewrite map_app, list_sum_app, length_app.
  cbn [map list_sum fold_right List.length].
  assert (E : (2 <= entry_length (k, v))%nat) by (unfold entry_length; lia).
  split; lia.
Qed.

Lemma X15_estimate_grows_with_fields_witness :
  dict_get "id" [("status", VStr "idle"); ("text", VStr "")] = None
  /\ _get_estimated_row_size_bytes [("status", VStr "idle"); ("text", VStr "")]
     < _get_estimated_row_size_bytes
         (dict_set "id" (VInt 11) [("status", VStr "idle"); ("text", VStr "")]).
Proof.
  split; [reflexivity|].
  apply (X15_estimate_grows_with_fields (H := sample)
           [("status", VStr "idle"); ("text", VStr "")] "id" (VInt 11)
           eq_refl).
Defined.

(** ** Further properties: polls *)

Section Polls.
Context {C : Collaborators}.

(** A poll ends in one of two ways, whatever happened before. *)
Lemma collect_activity_outcome env self :
  exists w,
    (collect_activity env self = on_error (set_last_query_start self w))
    \/ (exists ev,
          collect_activity env self = on_success (set_last_query_start self w) ev
          /\ tagged_event (collection_interval self) ev).
Proof.
  unfold collect_activity.
  assert (E : on_error self
              = on_error (set_last_query_start self
                            (_activity_last_query_start self)))
    by reflexivity.
  destruct (acquire env); [|eexists; left; exact E].
  destruct (_get_active_connections env) as [connections|];
    [|eexists; left; exact E].
  destruct (_get_activity env self) as [rows|]; [|eexists; left; exact E].
  destruct (_normalize_queries_and_filter_rows _ _ _) as [[out|e] w];
    exists w; [|now left].
  cbn zeta. destruct (transmit env _); [|now left].
  right. eexists. split; [reflexivity|]. repeat split.
Qed.

Lemma run_polls_accounting envs :
  forall self,
    let self' := run_polls envs self in
    (error_count self' + List.length (submitted self')
     = error_count self + List.length (submitted self) + List.length envs)%nat
    /\ (timing_count self' + List.length (submitted self)
        = timing_count self + List.length (submitted self'))%nat
    /\ collection_interval self' = collection_interval self
    /\ exists added,
         submitted self' = (submitted self ++ added)%list
         /\ Forall (tagged_event (collection_interval self)) added.
Proof.
  induction envs as [|env rest IH]; intros self; cbn zeta.
  - cbn. repeat split; try lia. exists (@nil event).
    rewrite app_nil_r. split; [reflexivity | constructor].
  - cbn [run_polls List.length].
    destruct (IH (snd (collect_activity env self)))
      as (A & T & I & added & Sb & G).
    destruct (collect_activity_outcome env self) as (w & [E|(ev & E & Tg)]);
      rewrite E in *; cbn in A, T, I, Sb, G |- *.
    + split; [lia|]. split; [lia|]. split; [exact I|].
      exists added. split; assumption.
    + rewrite length_app in A, T. cbn in A, T.
      split; [lia|]. split; [lia|]. split; [exact I|].
      exists (ev :: added). split.
      * rewrite Sb, <- app_assoc. reflexivity.
      * now constructor.
Qed.

End Polls.

(** X16. When both fetches, the normalizer and the transmission go
    through, the poll returns [None], counts no error, records one timing,
    and has sent exactly one more event: it carries the rows the
    normalizer returned and the connection summary rows as fetched,
    untouched by budget or attribute, with the source, type and collection
    interval of the job; the attribute is the one the normalizer left. *)
Theorem X16_successful_poll `{Collaborators}
    (env : poll_env) (self : job) (connections rows out : list row)
    (w' : value) :
  acquire env = Ok tt ->
  _get_active_connections env = Ok connections ->
  _get_activity env self = Ok rows ->
  _normalize_queries_and_filter_rows (_activity_last_query_start self) rows
    MAX_PAYLOAD_BYTES = (Ok out, w') ->
  transmit env
    (_create_activity_event env (set_last_query_start self w') out connections)
    = Ok tt ->
  fst (collect_activity env self) = None
  /\ error_count (snd (collect_activity env self)) = error_count self
  /\ timing_count (snd (collect_activity env self)) = S (timing_count self)
  /\ _activity_last_query_start (snd (collect_activity env self)) = w'
  /\ exists ev,
       submitted (snd (collect_activity env self))
       = (submitted self ++ [ev])%list
       /\ ev_sqlserver_activity ev = out
       /\ ev_sqlserver_connections ev = connections
       /\ tagged_event (collection_interval self) ev.
Proof.
  intros A Cn Ac N T.
  rewrite (collect_activity_after_fetch env self connections rows tt A Cn Ac).
  rewrite N. cbn zeta. rewrite T. repeat split.
  eexists. split; [reflexivity|]. repeat split.
Qed.

Lemma X16_successful_poll_witness :
  fst (collect_activity (sample_env [running_row (VTime 100) "SELECT 1"])
         (init None)) = None
  /\ exists ev,
       submitted
         (snd (collect_activity
                 (sample_env [running_row (VTime 100) "SELECT 1"]) (init None)))
       = [ev]
       /\ ev_sqlserver_connections ev
          = [[("user_name", VStr "app"); ("connections", VInt 3);
              ("status", VStr "running"); ("database_name", VStr "shop")]].
Proof.
  destruct (X16_successful_poll (H := sample)
              (sample_env [running_row (VTime 100) "SELECT 1"]) (init None)
              [[("user_name", VStr "app"); ("connections", VInt 3);
                ("status", VStr "running"); ("database_name", VStr "shop")]]
              [running_row (VTime 100) "SELECT 1"]
              [[("status", VStr "running"); ("text", VStr "SELECT ?");
                ("start_time", VTime 100); ("query_signature", VStr "5345")]]
              (VTime 100) eq_refl eq_refl eq_refl eq_refl eq_refl)
    as (R & _ & _ & _ & ev & S & _ & Cn & _).
  split; [exact R|]. exists ev. split; [exact S | exact Cn].
Defined.

(** X17. Every poll is accounted for exactly once: over any sequence of
    polls, the number of errors counted plus the number of events sent
    grows by the number of polls, one timing is recorded per event sent,
    events already sent stay in place, and the collection interval of the
    job never changes. *)
Theorem X17_every_poll_accounted_for `{Collaborators}
    (envs : list poll_env) (self : job) :
  (error_count (run_polls envs self)
   + List.length (submitted (run_polls envs self))
   = error_count self + List.length (submitted self) + List.length envs)%nat
  /\ (timing_count (run_polls envs self) + List.length (submitted self)
      = timing_count self
        + List.length (submitted (run_polls envs self)))%nat
  /\ collection_interval (run_polls envs self) = collection_interval self
  /\ exists added,
       submitted (run_polls envs self) = (submitted self ++ added)%list.
Proof.
  destruct (run_polls_accounting envs self) as (A & T & I & added & Sb & _).
  split; [exact A|]. split; [exact T|]. split; [exact I|]. now exists added.
Qed.

(** X18. Every event a job has sent since it was created names
    [sqlserver] as its source and [activity] as its type and carries the
    collection interval the job was created with. *)
Theorem X18_events_are_tagged `{Collaborators}
    (configured : option Z) (envs : list poll_env) :
  Forall (tagged_event (collection_interval (init configured)))
    (submitted (run_polls envs (init configured))).
Proof.
  destruct (run_polls_accounting envs (init configured))
    as (_ & _ & _ & added & Sb & G).
  rewrite Sb. exact G.
Qed.

(** X19. For a datetime-or-unset attribute and two rows whose
    [start_time] is a datetime or NULL, advancing the attribute by one row
    and then the other gives the same attribute in either order: the
    attribute a poll leaves does not depend on the order in which the rows
    it considers are met. *)
Theorem X19_set_last_activity_commutes (w : value) (r1 r2 : row) :
  time_or_None w = true ->
  start_time_typed r1 = true -> start_time_typed r2 = true ->
  dict_mem "start_time" r1 = true -> dict_mem "start_time" r2 = true ->
  (w1 <- _set_last_activity w r1 ;; _set_last_activity w1 r2)
  = (w2 <- _set_last_activity w r2 ;; _set_last_activity w2 r1).
Proof.
  unfold start_time_typed, dict_mem, _set_last_activity, dict_lookup.
  intros W T1 T2 M1 M2.
  destruct (dict_get "start_time" r1) as [[| | | |t1]|]; try discriminate;
    destruct (dict_get "start_time" r2) as [[| | | |t2]|]; try discriminate;
    destruct w as [| | | |m]; try discriminate; cbn; try reflexivity.
  - destruct (Z.gtb_spec t2 t1), (Z.gtb_spec t1 t2); try reflexivity; try lia.
    f_equal. f_equal. lia.
  - destruct (Z.gtb_spec t1 m), (Z.gtb_spec t2 m); cbn;
      repeat match goal with
             | |- context [(?a >? ?b)] => destruct (Z.gtb_spec a b); cbn
             end;
      try reflexivity; try lia; f_equal; f_equal; lia.
Qed.

Lemma X19_set_last_activity_commutes_witness :
  (w1 <- _set_last_activity (VTime 100) (running_row (VTime 150) "SELECT 1") ;;
   _set_last_activity w1 (running_row (VTime 120) "SELECT 2"))
  = Ok (VTime 150)
  /\ (w2 <- _set_last_activity (VTime 100) (running_row (VTime 120) "SELECT 2") ;;
      _set_last_activity w2 (running_row (VTime 150) "SELECT 1"))
     = Ok (VTime 150).
Proof.
  split; [reflexivity|].
  rewrite <- (X19_set_last_activity_commutes (VTime 100)
                (running_row (VTime 150) "SELECT 1")
                (running_row (VTime 120) "SELECT 2")
                eq_refl eq_refl eq_refl eq_refl eq_refl).
  reflexivity.
Defined.
